(** * cli-scripts: the timer's duration parsing and elapsed-time accounting

    A shallow embedding of [timer.py]: the [TimeInfo] named tuple with its two
    constructors, [timedelta_from_timestr], the [timer] run loop with its
    suspend detection, and the command line entry point.  The parts of
    Python's library that the program calls ([str] methods, [int],
    [datetime.timedelta], [str.format], [time.sleep]) are modelled next to the
    code that uses them.  [str.format] and [time.sleep] are modelled where
    their answer is plain (the templates made of text and integer fields,
    the lengths up to 10^9 seconds); beyond that the answer is left to a
    [library], a parameter of [timer] and [main], so that what is proved
    holds whatever Python does there.

    Conventions of the model:
    - a text is a [string], a sequence of characters below code point 256;
      a character beyond that is outside the parser's alphabet anyway;
    - Python's integers are [Z]; its floats are the binary64 floats of the
      kernel, so that [update_interval + suspend_margin] rounds as it does
      in Python;
    - an expression that may raise returns a [result]; the run loop lives in
      a monad that threads standard output and stops at an exception;
      [print] itself always succeeds;
    - the clock is given from outside: a run meets a list of clock readings
      and then a [KeyboardInterrupt], raised in [sleep] or between two
      statements of the loop body.  A run that is never interrupted does not
      end and is not described.

    [trim.py] only assembles shell commands; its [main] is embedded as the
    list of commands it hands to the shell, in module [Trim]. *)

From Stdlib Require Import ZArith List String Ascii Bool Lia Floats.
Import ListNotations.

Local Open Scope string_scope.
Local Open Scope Z_scope.

(* ================================================================== *)
(** * Exceptions and results *)
(* ================================================================== *)

(** The exception classes the program and the library calls it makes can
    raise; [Other] stands for any further class of the library.  Messages
    are not kept. *)
Inductive exn : Type :=
| AssertionError
| ValueError
| OverflowError
| KeyError
| IndexError
| AttributeError
| TypeError
| OSError
| SystemExit (code : Z)
| Other (class_name : string).

(** The result of an expression that may raise. *)
Inductive result (A : Type) : Type :=
| Ok (a : A)
| Raise (e : exn).
Arguments Ok {A} a.
Arguments Raise {A} e.

Definition rbind {A B : Type} (r : result A) (k : A -> result B) : result B :=
  match r with
  | Ok a => k a
  | Raise e => Raise e
  end.

Notation "x <-- r ;; k" := (rbind r (fun x => k))
  (at level 61, r at next level, right associativity).

(* ================================================================== *)
(** * Python's [str] operations used by the parser *)
(* ================================================================== *)

Module Str.

(** [c in s] for a one-character [c]. *)
Fixpoint mem (c : ascii) (s : string) : bool :=
  match s with
  | EmptyString => false
  | String a s' => Ascii.eqb a c || mem c s'
  end.

(** [all(p(c) for c in s)]. *)
Fixpoint all (p : ascii -> bool) (s : string) : bool :=
  match s with
  | EmptyString => true
  | String a s' => p a && all p s'
  end.

(** The rest of [s] after the prefix [p], when [s] starts with [p]. *)
Fixpoint strip_prefix (p s : string) : option string :=
  match p, s with
  | EmptyString, _ => Some s
  | String a p', String b s' => if Ascii.eqb a b then strip_prefix p' s' else None
  | String _ _, EmptyString => None
  end.

(** The text before and after the first occurrence of [sep] in [s]. *)
Fixpoint find (sep s : string) : option (string * string) :=
  match strip_prefix sep s with
  | Some rest => Some (EmptyString, rest)
  | None =>
      match s with
      | EmptyString => None
      | String c s' =>
          match find sep s' with
          | Some (before, after) => Some (String c before, after)
          | None => None
          end
      end
  end.

(** [sep in s]. *)
Definition contains (sep s : string) : bool :=
  match find sep s with
  | Some _ => true
  | None => false
  end.

(** [s.partition(sep)]. *)
Definition partition (sep s : string) : string * string * string :=
  match find sep s with
  | Some (before, after) => (before, sep, after)
  | None => (s, EmptyString, EmptyString)
  end.

(** [s.count(c)] for a one-character [c]. *)
Fixpoint count (c : ascii) (s : string) : nat :=
  match s with
  | EmptyString => O
  | String a s' => if Ascii.eqb a c then S (count c s') else count c s'
  end.

(** [s.split(c)] for a one-character [c]: never empty, one more piece than
    there are separators. *)
Fixpoint split (c : ascii) (s : string) : list string :=
  match s with
  | EmptyString => [EmptyString]
  | String a s' =>
      if Ascii.eqb a c then EmptyString :: split c s'
      else
        match split c s' with
        | piece :: pieces => String a piece :: pieces
        | [] => [String a EmptyString]
        end
  end.

(** Whitespace as [str.isspace] sees it, on the first 256 code points. *)
Definition is_space (c : ascii) : bool :=
  let n := nat_of_ascii c in
  ((9 <=? n) && (n <=? 13) || (28 <=? n) && (n <=? 32)
   || (n =? 133) || (n =? 160))%nat.

Fixpoint lstrip (s : string) : string :=
  match s with
  | String c s' => if is_space c then lstrip s' else s
  | EmptyString => EmptyString
  end.

Fixpoint rstrip (s : string) : string :=
  match s with
  | EmptyString => EmptyString
  | String c s' =>
      match rstrip s' with
      | EmptyString => if is_space c then EmptyString else String c EmptyString
      | r => String c r
      end
  end.

Definition strip (s : string) : string := rstrip (lstrip s).

(** The pieces of [split] put back together with the separator. *)
Fixpoint join (c : ascii) (pieces : list string) : string :=
  match pieces with
  | [] => EmptyString
  | [p] => p
  | p :: ps => p ++ String c (join c ps)
  end.

End Str.

(* ================================================================== *)
(** * Python's [int(str)] in base 10 *)
(* ================================================================== *)

Definition digit_of (c : ascii) : option Z :=
  let n := Z.of_nat (nat_of_ascii c) in
  if (48 <=? n) && (n <=? 57) then Some (n - 48) else None.

(** Digits, with single underscores allowed between two digits.
    [after_digit] tells whether the previous character was a digit. *)
Fixpoint int_body (acc : Z) (after_digit : bool) (s : string) : option Z :=
  match s with
  | EmptyString => if after_digit then Some acc else None
  | String c s' =>
      match digit_of c with
      | Some d => int_body (10 * acc + d) true s'
      | None =>
          if Ascii.eqb c "_" && after_digit then int_body acc false s'
          else None
      end
  end.

(** The limit on the digits of a numeral that is converted to or from an
    integer: [sys.get_int_max_str_digits()], 4300 unless the interpreter is
    told otherwise (CPython 3.11 and later; the program does not change
    it). *)
Definition MAX_STR_DIGITS : Z := 4300.

(** The digits of a text, leading zeros included, underscores and sign
    left out. *)
Fixpoint digit_count (s : string) : Z :=
  match s with
  | EmptyString => 0
  | String c s' =>
      (match digit_of c with Some _ => 1 | None => 0 end) + digit_count s'
  end.

(** One optional sign, then the digits. *)
Definition int_value (text : string) : option Z :=
  match text with
  | String c r =>
      if Ascii.eqb c "-" then option_map Z.opp (int_body 0 false r)
      else if Ascii.eqb c "+" then int_body 0 false r
      else int_body 0 false (String c r)
  | EmptyString => None
  end.

(** [int(s)]: surrounding whitespace is dropped, one sign is allowed, and
    what is left must be a decimal numeral of at most [MAX_STR_DIGITS]
    digits; anything else is a [ValueError]. *)
Definition int_ (s : string) : result Z :=
  let text := Str.strip s in
  match int_value text with
  | Some n =>
      if MAX_STR_DIGITS <? digit_count text then Raise ValueError else Ok n
  | None => Raise ValueError
  end.

(* ================================================================== *)
(** * [datetime.timedelta] *)
(* ================================================================== *)

(** A timedelta is kept normalised by its constructor:
    [0 <= seconds < 86400] and [0 <= microseconds < 1000000]; the sign is
    carried by [days], which is limited to 999999999 in magnitude. *)
Record timedelta : Type := mk_timedelta {
  td_days : Z;
  td_seconds : Z;
  td_microseconds : Z
}.

Definition MAX_DELTA_DAYS : Z := 999999999.

Definition timedelta_valid (t : timedelta) : Prop :=
  - MAX_DELTA_DAYS <= td_days t <= MAX_DELTA_DAYS
  /\ 0 <= td_seconds t < 86400
  /\ 0 <= td_microseconds t < 1000000.

(** Python's [divmod] on integers with a positive divisor. *)
Definition divmod (a b : Z) : Z * Z := (a / b, a mod b).

(** [timedelta(days=, seconds=, microseconds=, minutes=, hours=)] on integer
    arguments, with the normalisation steps of the constructor. *)
Definition timedelta_new (days seconds microseconds minutes hours : Z)
  : result timedelta :=
  let seconds := seconds + minutes * 60 + hours * 3600 in
  let d := days in
  let '(days1, seconds1) := divmod seconds (24 * 3600) in
  let d := d + days1 in
  let s := seconds1 in
  let '(seconds2, microseconds2) := divmod microseconds 1000000 in
  let '(days2, seconds2) := divmod seconds2 (24 * 3600) in
  let d := d + days2 in
  let s := s + seconds2 in
  let '(seconds3, us) := divmod microseconds2 1000000 in
  let s := s + seconds3 in
  let '(days3, s) := divmod s (24 * 3600) in
  let d := d + days3 in
  if Z.abs d >? MAX_DELTA_DAYS then Raise OverflowError
  else Ok (mk_timedelta d s us).

(** [timedelta()] *)
Definition timedelta_zero : timedelta := mk_timedelta 0 0 0.

(** [a + b] *)
Definition timedelta_add (a b : timedelta) : result timedelta :=
  timedelta_new (td_days a + td_days b) (td_seconds a + td_seconds b)
                (td_microseconds a + td_microseconds b) 0 0.

(** [a > b]: the comparison of the [(days, seconds, microseconds)] tuples. *)
Definition timedelta_gt (a b : timedelta) : bool :=
  match td_days a ?= td_days b with
  | Gt => true
  | Lt => false
  | Eq =>
      match td_seconds a ?= td_seconds b with
      | Gt => true
      | Lt => false
      | Eq => td_microseconds a >? td_microseconds b
      end
  end.

(** The length of a timedelta in microseconds. *)
Definition total_microseconds (t : timedelta) : Z :=
  (td_days t * 86400 + td_seconds t) * 1000000 + td_microseconds t.

(** The normalised timedelta of a number of microseconds. *)
Definition timedelta_of_microseconds (n : Z) : timedelta :=
  mk_timedelta (n / 86400000000) (n / 1000000 mod 86400) (n mod 1000000).

(* ================================================================== *)
(** * [TimeInfo] *)
(* ================================================================== *)

Record TimeInfo : Type := mk_TimeInfo {
  days : Z;
  hours : Z;
  minutes : Z;
  seconds : Z;
  microseconds : Z
}.

(** [TimeInfo.from_timedelta] *)
Definition from_timedelta (t : timedelta) : TimeInfo :=
  let '(minutes, seconds) := divmod (td_seconds t) 60 in
  let '(hours, minutes) := divmod minutes 60 in
  mk_TimeInfo (td_days t) hours minutes seconds (td_microseconds t).

(** The characters [from_timestr] lets through. *)
Definition PERMITTED : string := "01234567890:,. days".

Definition DAYS_SEP : string := " days, ".

(** The day prefix and the time segment: lines 72-78. *)
Definition split_days (timestr : string) : string * string :=
  if Str.contains DAYS_SEP timestr then
    let '(days, _, timestr) := Str.partition DAYS_SEP timestr in
    (days, timestr)
  else ("0", timestr).

(** Hours, minutes and seconds text of the time segment: lines 80-92. *)
Definition split_time (timestr : string) : result (string * string * string) :=
  let default := "0" in
  let colon_count := Str.count ":" timestr in
  match colon_count with
  | 0%nat => Ok (default, default, timestr)
  | 1%nat =>
      match Str.split ":" timestr with
      | [minutes; seconds] => Ok (default, minutes, seconds)
      | _ => Raise ValueError
      end
  | 2%nat =>
      match Str.split ":" timestr with
      | [hours; minutes; seconds] => Ok (hours, minutes, seconds)
      | _ => Raise ValueError
      end
  | _ => Raise ValueError
  end.

(** Whole seconds and microseconds text of the seconds field: lines 94-97. *)
Definition split_seconds (seconds : string) : string * string :=
  if Str.contains "." seconds then
    let '(seconds, _, microseconds) := Str.partition "." seconds in
    (seconds, microseconds)
  else (seconds, "0").

(** [TimeInfo.from_timestr] *)
Definition from_timestr (timestr : string) : result TimeInfo :=
  if negb (Str.all (fun char => Str.mem char PERMITTED) timestr)
  then Raise AssertionError
  else
    let '(days, timestr) := split_days timestr in
    fields <-- split_time timestr ;;
    let '(hours, minutes, seconds) := fields in
    let '(seconds, microseconds) := split_seconds seconds in
    d <-- int_ days ;;
    h <-- int_ hours ;;
    m <-- int_ minutes ;;
    s <-- int_ seconds ;;
    us <-- int_ microseconds ;;
    Ok (mk_TimeInfo d h m s us).

(** [timedelta_from_timestr]: the fields go to [timedelta] by keyword. *)
Definition timedelta_from_timestr (timestr : string) : result timedelta :=
  timeinfo <-- from_timestr timestr ;;
  timedelta_new (days timeinfo) (seconds timeinfo) (microseconds timeinfo)
                (minutes timeinfo) (hours timeinfo).


(* ================================================================== *)
(** * [timedelta(seconds=x)] for a float [x] *)
(* ================================================================== *)

(** A finite float is [m * 2^e] up to its sign; [int], [math.modf] and
    [round] are computed on that exact value. *)

(** [int(x)]: truncation toward zero. *)
Definition float_int (x : float) : result Z :=
  match Prim2SF x with
  | S754_nan => Raise ValueError
  | S754_infinity _ => Raise OverflowError
  | S754_zero _ => Ok 0
  | S754_finite sign m e =>
      let a := if 0 <=? e then Z.pos m * 2 ^ e else Z.pos m / 2 ^ (- e) in
      Ok (if sign then - a else a)
  end.

(** [math.modf(x)[0]]: the fractional part, with the sign of [x]. *)
Definition float_frac (x : float) : float :=
  match Prim2SF x with
  | S754_nan => nan
  | S754_infinity _ => zero
  | S754_zero _ => x
  | S754_finite sign m e =>
      if 0 <=? e then zero
      else
        match Z.pos m mod 2 ^ (- e) with
        | Z.pos r => SF2Prim (S754_finite sign r e)
        | _ => zero
        end
  end.

(** [round(x)]: to the nearest integer, ties to the even one. *)
Definition float_round (x : float) : result Z :=
  match Prim2SF x with
  | S754_nan => Raise ValueError
  | S754_infinity _ => Raise OverflowError
  | S754_zero _ => Ok 0
  | S754_finite sign m e =>
      let a :=
        if 0 <=? e then Z.pos m * 2 ^ e
        else
          let k := 2 ^ (- e) in
          let q := Z.pos m / k in
          match 2 * (Z.pos m mod k) ?= k with
          | Lt => q
          | Gt => q + 1
          | Eq => if Z.even q then q else q + 1
          end in
      Ok (if sign then - a else a)
  end.

(** [timedelta(seconds=x)]: whole seconds and the fraction are split, the
    fraction is scaled to microseconds in floating point and rounded. *)
Definition timedelta_of_seconds (x : float) : result timedelta :=
  whole <-- float_int x ;;
  let secondsfrac := float_frac x in
  let '(d, s) := divmod whole (24 * 3600) in
  let usdouble := (secondsfrac * 1e6)%float in
  us <-- float_round usdouble ;;
  let '(seconds2, us) := divmod us 1000000 in
  let s := s + seconds2 in
  let '(days3, s) := divmod s (24 * 3600) in
  let d := d + days3 in
  if Z.abs d >? MAX_DELTA_DAYS then Raise OverflowError
  else Ok (mk_timedelta d s us).

(* ================================================================== *)
(** * Decimal rendering of integers *)
(* ================================================================== *)

Definition digit_char (d : Z) : ascii := ascii_of_nat (48 + Z.to_nat d).

(** The decimal digits of [n >= 0] put in front of [tail]; [fuel] bounds the
    number of digits after the first and [Z.log2 n] is always enough. *)
Fixpoint decimal_digits (fuel : nat) (n : Z) (tail : string) : string :=
  let tail' := String (digit_char (n mod 10)) tail in
  match fuel with
  | O => tail'
  | S fuel' => if n <? 10 then tail' else decimal_digits fuel' (n / 10) tail'
  end.

Definition decimal (n : Z) : string :=
  decimal_digits (Z.to_nat (Z.log2 n)) n EmptyString.

Fixpoint repeat_char (c : ascii) (n : nat) : string :=
  match n with
  | O => EmptyString
  | S n' => String c (repeat_char c n')
  end.

(** An integer in a field of [width] characters: the sign first, then
    zeros or (before the sign) spaces up to the width, then the digits.
    This is ["%0Nd" % n], ["%d" % n] and [format(n, "0Nd")], [format(n, "Nd")]. *)
Definition format_int (zero_pad : bool) (width : nat) (n : Z) : string :=
  let sign := if n <? 0 then "-" else EmptyString in
  let digits := decimal (Z.abs n) in
  let fill := (width - (String.length sign + String.length digits))%nat in
  if zero_pad then sign ++ repeat_char "0" fill ++ digits
  else repeat_char " " fill ++ sign ++ digits.

(** [str(t)] for a timedelta. *)
Definition timedelta_str (t : timedelta) : string :=
  let '(mm, ss) := divmod (td_seconds t) 60 in
  let '(hh, mm) := divmod mm 60 in
  let s := format_int false 0 hh ++ ":" ++ format_int true 2 mm
           ++ ":" ++ format_int true 2 ss in
  let s :=
    if td_days t =? 0 then s
    else
      let plural := if Z.abs (td_days t) =? 1 then EmptyString else "s" in
      (format_int false 0 (td_days t) ++ " day" ++ plural ++ ", ") ++ s in
  if td_microseconds t =? 0 then s
  else s ++ "." ++ format_int true 6 (td_microseconds t).

(* ================================================================== *)
(** * [str.format] with the fields of a [TimeInfo] *)
(* ================================================================== *)

(** The keys of [TimeInfo._asdict()]. *)
Inductive field : Type := Fdays | Fhours | Fminutes | Fseconds | Fmicroseconds.

Definition field_of_name (name : string) : option field :=
  if String.eqb name "days" then Some Fdays
  else if String.eqb name "hours" then Some Fhours
  else if String.eqb name "minutes" then Some Fminutes
  else if String.eqb name "seconds" then Some Fseconds
  else if String.eqb name "microseconds" then Some Fmicroseconds
  else None.

Definition get_field (f : field) (t : TimeInfo) : Z :=
  match f with
  | Fdays => days t
  | Fhours => hours t
  | Fminutes => minutes t
  | Fseconds => seconds t
  | Fmicroseconds => microseconds t
  end.

(** A piece of a template: a literal character or a replacement field. *)
Inductive piece : Type :=
| Lit (c : ascii)
| Repl (f : field) (zero_pad : bool) (width : nat).

Definition is_digit (c : ascii) : bool :=
  match digit_of c with Some _ => true | None => false end.

(** [str.format] has a language of its own (alignment, fill, sign, number
    bases, float presentations, conversions, attribute and index lookups,
    nested fields).  The model decides a fragment of it: literal text, the
    doubled braces, and the fields [{name}] and [{name:[0][width][d]}].  On
    a template of the fragment it says what [str.format] does; when a
    template leaves the fragment, and no field before that place has
    raised, the answer is the library's own. *)
Inductive decided (A : Type) : Type :=
| Renders (a : A)
| Refuses (e : exn)
| Beyond.
Arguments Renders {A} a.
Arguments Refuses {A} e.
Arguments Beyond {A}.

Definition dbind {A B : Type} (d : decided A) (k : A -> decided B) : decided B :=
  match d with
  | Renders a => k a
  | Refuses e => Refuses e
  | Beyond => Beyond
  end.

Notation "x <~~ d ;; k" := (dbind d (fun x => k))
  (at level 61, d at next level, right associativity).

(** What Python's library does where the model does not decide:
    [format_beyond template t] is [template.format] on the dictionary of
    [t] for a template outside the fragment above, and [sleep_beyond secs]
    is what [time.sleep] answers to a length above [SLEEP_DECIDED] seconds
    (an exception or none), which depends on the platform and is taken to
    be the same at every call of a run. *)
Record library : Type := mk_library {
  format_beyond : string -> TimeInfo -> result string;
  sleep_beyond : float -> option exn
}.

(** The number written by the leading digits of [s], and the rest. *)
Fixpoint width_of (acc : nat) (s : string) : nat * string :=
  match s with
  | String c s' =>
      match digit_of c with
      | Some d => width_of (10 * acc + Z.to_nat d) s'
      | None => (acc, s)
      end
  | EmptyString => (acc, s)
  end.

(** The format specifications decided: [[0][width][d]] with a width of at
    most four digits. *)
Definition parse_spec (spec : string) : decided (bool * nat) :=
  let '(zero_pad, rest) :=
    match spec with
    | String c r => if Ascii.eqb c "0" then (true, r) else (false, spec)
    | EmptyString => (false, spec)
    end in
  let '(width, rest') := width_of 0 rest in
  if (String.eqb rest' EmptyString || String.eqb rest' "d")
     && (String.length rest - String.length rest' <=? 4)%nat
  then Renders (zero_pad, width)
  else Beyond.

(** What stands between [{] and [}]: a key of the dictionary, then
    optionally [:] and a specification.  The value is looked up before the
    specification is read: an empty or numeric name asks for a positional
    argument, of which there is none ([IndexError]), and any other name
    that is not a key is a [KeyError].  A name with a conversion ([!]), an
    attribute ([.]) or an index ([[]]), a number of more than four digits and
    a specification outside [parse_spec] are beyond the fragment. *)
Definition parse_field (text : string) : decided piece :=
  let '(name, _, spec) := Str.partition ":" text in
  if Str.mem "!" name || Str.mem "." name || Str.mem "[" name then Beyond
  else if Str.all is_digit name then
    if (String.length name <=? 4)%nat then Refuses IndexError else Beyond
  else
    match field_of_name name with
    | None => Refuses KeyError
    | Some f =>
        zw <~~ parse_spec spec ;;
        Renders (Repl f (fst zw) (snd zw))
    end.

(** Where the scanner is in the template. *)
Inductive scan_state : Type :=
| InText
| AfterOpen
| InField (text : string)
| AfterClose.

(** How the reading of a template ends: at its end, at a place where
    [str.format] raises, or at a place beyond the fragment. *)
Inductive ending : Type :=
| Complete
| RefusesAt (e : exn)
| BeyondAt.

(** The template from left to right, as [str.format] reads it: the pieces
    up to the place where the reading ends.  [{{] and [}}] are literal
    braces, a single brace with no partner is a [ValueError], and a brace
    inside a field (a nested field) is beyond the fragment. *)
Fixpoint scan (st : scan_state) (template : string) : list piece * ending :=
  match template with
  | EmptyString =>
      match st with
      | InText => ([], Complete)
      | _ => ([], RefusesAt ValueError)
      end
  | String c rest =>
      match st with
      | InText =>
          if Ascii.eqb c "{" then scan AfterOpen rest
          else if Ascii.eqb c "}" then scan AfterClose rest
          else let '(ps, e) := scan InText rest in (Lit c :: ps, e)
      | AfterOpen =>
          if Ascii.eqb c "{" then
            let '(ps, e) := scan InText rest in (Lit c :: ps, e)
          else if Ascii.eqb c "}" then ([], RefusesAt IndexError)
          else scan (InField (String c EmptyString)) rest
      | InField text =>
          if Ascii.eqb c "}" then
            match parse_field text with
            | Renders p => let '(ps, e) := scan InText rest in (p :: ps, e)
            | Refuses e => ([], RefusesAt e)
            | Beyond => ([], BeyondAt)
            end
          else if Ascii.eqb c "{" then ([], BeyondAt)
          else scan (InField (text ++ String c EmptyString)) rest
      | AfterClose =>
          if Ascii.eqb c "}" then
            let '(ps, e) := scan InText rest in (Lit c :: ps, e)
          else ([], RefusesAt ValueError)
      end
  end.

(** A field is written with [format(n, spec)], which refuses an integer of
    more than [MAX_STR_DIGITS] digits. *)
Definition render_piece (t : TimeInfo) (p : piece) : result string :=
  match p with
  | Lit c => Ok (String c EmptyString)
  | Repl f zero_pad width =>
      let n := get_field f t in
      if MAX_STR_DIGITS <? Z.of_nat (String.length (decimal (Z.abs n)))
      then Raise ValueError
      else Ok (format_int zero_pad width n)
  end.

Fixpoint render (t : TimeInfo) (ps : list piece) : result string :=
  match ps with
  | [] => Ok EmptyString
  | p :: ps' =>
      a <-- render_piece t p ;;
      b <-- render t ps' ;;
      Ok (a ++ b)
  end.

(** [template.format] applied to the dictionary of [t]: the pieces are
    written in their order, so that a field that cannot be written raises
    before a later place of the template is looked at. *)
Definition str_format (py : library) (template : string) (t : TimeInfo)
  : result string :=
  let '(ps, e) := scan InText template in
  text <-- render t ps ;;
  match e with
  | Complete => Ok text
  | RefusesAt e => Raise e
  | BeyondAt => format_beyond py template t
  end.

Definition DEFAULT_INITIAL_TIME : string := "0:0:0.0".
(** 0.01, as the binary64 value nearest to it. *)
Definition DEFAULT_UPDATE_INTERVAL : float := 0x1.47ae147ae147bp-7%float.
Definition DEFAULT_OUTPUT_FORMAT : string :=
  "{hours:02d}h : {minutes:02d}m : {seconds:02d}s : {microseconds}ms".
Definition START_OF_PREV_LINE : string := String (ascii_of_nat 27) "[F".

(* ================================================================== *)
(** * Standard output and exceptions: the monad of the run *)
(* ================================================================== *)

(** A computation reads and extends what was printed so far (one entry per
    call of [print]) and returns a value or raises; what was printed before
    an exception stays printed. *)
Definition IO (A : Type) : Type := list string -> result A * list string.

Definition ret {A : Type} (a : A) : IO A := fun out => (Ok a, out).

Definition bind {A B : Type} (m : IO A) (k : A -> IO B) : IO B :=
  fun out =>
    match m out with
    | (Ok a, out') => k a out'
    | (Raise e, out') => (Raise e, out')
    end.

Definition raise {A : Type} (e : exn) : IO A := fun out => (Raise e, out).

Definition lift {A : Type} (r : result A) : IO A := fun out => (r, out).

Definition print (line : string) : IO unit :=
  fun out => (Ok tt, (out ++ [line])%list).

Definition when (b : bool) (m : IO unit) : IO unit := if b then m else ret tt.

Notation "x <- m ; k" := (bind m (fun x => k))
  (at level 61, m at next level, right associativity).
Notation "m ;; k" := (bind m (fun _ => k))
  (at level 61, right associativity).

(* ================================================================== *)
(** * The clock, the interrupt, and [timer] *)
(* ================================================================== *)

(** A [datetime] as its number of microseconds since 0001-01-01 00:00:00;
    the program only subtracts datetimes. *)
Definition datetime : Type := Z.

(** [a - b] on datetimes. *)
Definition datetime_sub (a b : datetime) : timedelta :=
  timedelta_of_microseconds (a - b).

(** Where in the loop body the [KeyboardInterrupt] is raised. *)
Inductive interrupt_point : Type :=
| in_sleep                                  (* line 161 *)
| before_accounting (end_ : datetime)       (* after lines 162-164 *)
| before_display (end_ : datetime).         (* after lines 162-172 *)

(** What the run meets: the clock when the timer starts, the clock at each
    iteration of the loop that runs to its end, and the point of the
    following iteration at which the interrupt arrives. *)
Record world : Type := mk_world {
  clock_start : datetime;
  clock_ticks : list datetime;
  interrupt : interrupt_point
}.

(** The lengths up to which [time.sleep] is decided here: 10^9 seconds,
    more than thirty years. *)
Definition SLEEP_DECIDED : float := 1e9%float.

(** [time.sleep(secs)]: the length is converted to a count of nanoseconds
    in 64 bits and must not be negative.  NaN is refused, a count outside
    the 64 bits overflows, a negative length is refused, and a length from
    0 to [SLEEP_DECIDED] is slept.  Above that the deadline may lie beyond
    what the platform's clock can hold ([OSError] on Linux), so the answer
    is the library's. *)
Definition sleep_error (py : library) (secs : float) : option exn :=
  let ns := (secs * 1e9)%float in
  if PrimFloat.is_nan secs then Some ValueError
  else if (0x1p63 <? ns)%float || (ns <? - 0x1p63)%float then Some OverflowError
  else if (secs <? 0)%float then Some ValueError
  else if (secs <=? SLEEP_DECIDED)%float then None
  else sleep_beyond py secs.

Definition sleep (py : library) (secs : float) : IO unit :=
  match sleep_error py secs with
  | Some e => raise e
  | None => ret tt
  end.

(** The variables of the loop. *)
Record loop_vars : Type := mk_loop_vars {
  elapsed : timedelta;
  start : datetime
}.

Section Timer.

Variable py : library.
Variable output_format : string.
Variable final_only : bool.
Variable update_interval : float.
Variable likely_suspended_timedelta : timedelta.

(** [msg]: lines 142-150. *)
Definition msg (skip_printing : bool) (elapsed : timedelta) : IO unit :=
  if skip_printing then ret tt
  else
    text <- lift (str_format py output_format (from_timedelta elapsed)) ;
    print (START_OF_PREV_LINE ++ text).

(** Lines 162-172: read the clock, move the checkpoint, classify the
    interval and account for it. *)
Definition tick (end_ : datetime) (v : loop_vars) : IO loop_vars :=
  let interval := datetime_sub end_ (start v) in
  let start := end_ in
  if timedelta_gt interval likely_suspended_timedelta then
    when (negb final_only) (print EmptyString) ;;
    ret (mk_loop_vars (elapsed v) start)
  else
    elapsed <- lift (timedelta_add (elapsed v) interval) ;
    ret (mk_loop_vars elapsed start).

(** One iteration that runs to its end: lines 161-173. *)
Definition iteration (end_ : datetime) (v : loop_vars) : IO loop_vars :=
  sleep py update_interval ;;
  v' <- tick end_ v ;
  msg final_only (elapsed v') ;;
  ret v'.

(** The iterations that run to their end. *)
Fixpoint run_loop (ticks : list datetime) (v : loop_vars) : IO loop_vars :=
  match ticks with
  | [] => ret v
  | end_ :: ticks' =>
      v' <- iteration end_ v ;
      run_loop ticks' v'
  end.

(** The iteration in which the interrupt arrives, up to that point. *)
Definition interrupted_iteration (p : interrupt_point) (v : loop_vars)
  : IO loop_vars :=
  sleep py update_interval ;;
  match p with
  | in_sleep => ret v
  | before_accounting end_ => ret (mk_loop_vars (elapsed v) end_)
  | before_display end_ => tick end_ v
  end.

(** The handler: lines 174-180. *)
Definition on_keyboard_interrupt (elapsed : timedelta) : IO timedelta :=
  when final_only (print EmptyString) ;;
  msg false elapsed ;;
  when (negb final_only) (print "KeyboardInterrupt: exiting") ;;
  ret elapsed.

End Timer.

Definition or_default {A : Type} (o : option A) (d : A) : A :=
  match o with
  | Some a => a
  | None => d
  end.

(** [timer]: lines 113-180. *)
Definition timer (py : library) (initial_time : option timedelta)
    (update_interval suspend_margin : option float)
    (output_format : option string) (final_only : bool) (w : world)
  : IO timedelta :=
  let update_interval := or_default update_interval DEFAULT_UPDATE_INTERVAL in
  let suspend_margin := or_default suspend_margin update_interval in
  when (negb (0 <=? suspend_margin)%float) (raise AssertionError) ;;
  let output_format := or_default output_format DEFAULT_OUTPUT_FORMAT in
  likely_suspended_timedelta <-
    lift (timedelta_of_seconds (update_interval + suspend_margin)%float) ;
  let v0 := mk_loop_vars (or_default initial_time timedelta_zero)
                         (clock_start w) in
  when (negb final_only) (print EmptyString) ;;
  v <- run_loop py output_format final_only update_interval
         likely_suspended_timedelta (clock_ticks w) v0 ;
  v <- interrupted_iteration py final_only update_interval
         likely_suspended_timedelta (interrupt w) v ;
  on_keyboard_interrupt py output_format final_only (elapsed v).

(* ================================================================== *)
(** * The command line *)
(* ================================================================== *)

(** The options as given on the command line; the two float options are
    taken after their conversion by [float]. *)
Record argv : Type := mk_argv {
  arg_initial_time : option string;
  arg_output_format : option string;
  arg_update_interval : option float;
  arg_suspend_margin : option float;
  arg_final_only : bool
}.

(** The namespace [parse_args] returns. *)
Record namespace : Type := mk_namespace {
  ns_initial_time : timedelta;
  ns_output_format : string;
  ns_update_interval : float;
  ns_suspend_margin : option float;
  ns_final_only : bool
}.

(** [parser.parse_args()]: [--initial-time], or its default text, goes
    through [timedelta_from_timestr]; argparse turns a [ValueError] of the
    conversion into a usage error, which exits with status 2. *)
Definition parse_args (a : argv) : result namespace :=
  match timedelta_from_timestr
          (or_default (arg_initial_time a) DEFAULT_INITIAL_TIME) with
  | Raise ValueError => Raise (SystemExit 2)
  | Raise e => Raise e
  | Ok initial_time =>
      Ok (mk_namespace initial_time
            (or_default (arg_output_format a) DEFAULT_OUTPUT_FORMAT)
            (or_default (arg_update_interval a) DEFAULT_UPDATE_INTERVAL)
            (arg_suspend_margin a)
            (arg_final_only a))
  end.

(** [main] *)
Definition main (py : library) (a : argv) (w : world) : IO unit :=
  args <- lift (parse_args a) ;
  timer py (Some (ns_initial_time args)) (Some (ns_update_interval args))
        (ns_suspend_margin args) (Some (ns_output_format args))
        (ns_final_only args) w ;;
  ret tt.

(* ================================================================== *)
(** * [trim.py] *)
(* ================================================================== *)

Module Trim.

(** The namespace of [parse_args]: argparse lets [format] be one of
    [git], [fancy] and [sed], and [color] one of 0 to 7. *)
Record arguments : Type := mk_arguments {
  files : list string;
  apply : bool;
  preview : bool;
  format : string;
  color : Z
}.

(** What [main] does, in order. *)
Inductive effect : Type :=
| Subprocess (command : string)   (* subprocess.run(command, shell=True) *)
| PrintHelp                       (* parser.print_help() *)
| Print (text : string).

Definition NEWLINE_TAB : string :=
  String (ascii_of_nat 10) (String (ascii_of_nat 9) EmptyString).

(** [sep.join(pieces)] *)
Fixpoint join (sep : string) (pieces : list string) : string :=
  match pieces with
  | [] => EmptyString
  | [p] => p
  | p :: ps => p ++ sep ++ join sep ps
  end.

(** The command of one file in preview mode: lines 57-82. *)
Definition preview_command (args : arguments) (file_name : string)
  : list effect :=
  if String.eqb (format args) "fancy" then
    [Subprocess
       ("sed 's/[ ]*$//' " ++ file_name
        ++ " | git --no-pager diff --color --no-index -- - " ++ file_name
        ++ " | grep -v '^.\[31m-'"
        ++ " | grep -v '^.\[1mindex'"
        ++ " | grep -v '^.\[1m---'"
        ++ " | grep -v '^.\[1m+++'"
        ++ " | sed 's/diff --git a\/- b\//file: /'"
        ++ " | sed 's/^.\[32m+/ /'"
        ++ " | sed 's/.\[32m//'"
        ++ " | sed 's/\[41m/\[4" ++ format_int false 0 (color args) ++ "m/'")]
  else if String.eqb (format args) "git" then
    [Subprocess
       ("sed 's/[ ]*$//' " ++ file_name
        ++ " | git --no-pager diff --color --no-index -- - " ++ file_name)]
  else if String.eqb (format args) "sed" then
    [Subprocess ("sed 's/[ ]*$//' " ++ file_name)]
  else [].

(** [main]: lines 49-90. *)
Definition main (args : arguments) : list effect :=
  if apply args then
    List.map (fun file_name => Subprocess ("sed -i 's/[ ]*$//' " ++ file_name))
             (files args)
  else if preview args then
    List.flat_map (preview_command args) (files args)
  else
    [PrintHelp;
     Print ("files selected:" ++ NEWLINE_TAB ++ join NEWLINE_TAB (files args)
            ++ String (ascii_of_nat 10) EmptyString)].

(** The same arguments with another color. *)
Definition with_color (args : arguments) (c : Z) : arguments :=
  mk_arguments (files args) (apply args) (preview args) (format args) c.

End Trim.

(* ================================================================== *)
(** * Notions used to state the properties *)
(* ================================================================== *)

Definition digit_value (c : ascii) : Z :=
  match digit_of c with
  | Some d => d
  | None => 0
  end.

(** The number a decimal numeral denotes, digit by digit with its place
    value. *)
Fixpoint numeral_value (s : string) : Z :=
  match s with
  | EmptyString => 0
  | String c r => digit_value c * 10 ^ Z.of_nat (String.length r) + numeral_value r
  end.

(** Every character is allowed by the check at the head of [from_timestr]. *)
Definition permitted (s : string) : bool :=
  Str.all (fun char => Str.mem char PERMITTED) s.

(** The time segment of a text: what follows the day prefix. *)
Definition time_segment (timestr : string) : string := snd (split_days timestr).

(** The seconds field of a text: the last piece of its time segment. *)
Definition seconds_field (timestr : string) : string :=
  match split_time (time_segment timestr) with
  | Ok (_, _, sf) => sf
  | Raise _ => EmptyString
  end.

(** The five pieces of text that [from_timestr] hands to [int], in the
    order days, hours, minutes, seconds, microseconds; a piece the text
    does not have is ["0"]. *)
Definition field_texts (timestr : string)
  : option (string * string * string * string * string) :=
  let '(d, seg) := split_days timestr in
  match split_time seg with
  | Ok (h, m, sf) =>
      let '(s, us) := split_seconds sf in
      Some (d, h, m, s, us)
  | Raise _ => None
  end.

(** The integer written in a piece of text: its digits, with the blanks
    around them left out, read as a decimal numeral. *)
Definition written (text : string) : Z := numeral_value (Str.strip text).

(** The fields other than [days] are within their natural modulus. *)
Definition normalized (t : TimeInfo) : Prop :=
  0 <= hours t <= 23 /\ 0 <= minutes t <= 59 /\ 0 <= seconds t <= 59
  /\ 0 <= microseconds t <= 999999.

Definition non_negative (t : TimeInfo) : Prop :=
  0 <= days t /\ 0 <= hours t /\ 0 <= minutes t /\ 0 <= seconds t
  /\ 0 <= microseconds t.

(** Seconds and microseconds are within their range (days may not be). *)
Definition reduced (t : timedelta) : Prop :=
  0 <= td_seconds t < 86400 /\ 0 <= td_microseconds t < 1000000.

(** The clock readings that were accounted for (lines 168-172) before the
    interrupt. *)
Definition accounted (w : world) : list datetime :=
  match interrupt w with
  | before_display end_ => (clock_ticks w ++ [end_])%list
  | _ => clock_ticks w
  end.

(** The microseconds that count as elapsed over a sequence of clock
    readings: every interval between two consecutive readings that is not
    above the threshold, once. *)
Fixpoint counted_microseconds (threshold : Z) (checkpoint : datetime)
    (ticks : list datetime) : Z :=
  match ticks with
  | [] => 0
  | t :: rest =>
      (if t - checkpoint >? threshold then 0 else t - checkpoint)
      + counted_microseconds threshold t rest
  end.

(** Every sum the loop forms over the readings is a timedelta within
    range. *)
Fixpoint in_range (threshold elapsed : Z) (checkpoint : datetime)
    (ticks : list datetime) : bool :=
  match ticks with
  | [] => true
  | t :: rest =>
      if t - checkpoint >? threshold then in_range threshold elapsed t rest
      else
        (Z.abs ((elapsed + (t - checkpoint)) / 86400000000) <=? MAX_DELTA_DAYS)
        && in_range threshold (elapsed + (t - checkpoint)) t rest
  end.

(** A library for the worked examples, all of which stay within what the
    model decides: it refuses whatever it is asked. *)
Definition example_library : library :=
  mk_library (fun _ _ => Raise (Other "beyond the model"))
             (fun _ => Some (Other "beyond the model")).

(** The pieces of the default template. *)
Definition default_pieces : list piece :=
  [Repl Fhours true 2; Lit "h"; Lit " "; Lit ":"; Lit " ";
   Repl Fminutes true 2; Lit "m"; Lit " "; Lit ":"; Lit " ";
   Repl Fseconds true 2; Lit "s"; Lit " "; Lit ":"; Lit " ";
   Repl Fmicroseconds false 0; Lit "m"; Lit "s"].

(** What the default template shows of a timedelta. *)
Definition default_text (e : timedelta) : string :=
  let t := from_timedelta e in
  format_int true 2 (hours t) ++ "h : " ++ format_int true 2 (minutes t)
  ++ "m : " ++ format_int true 2 (seconds t) ++ "s : "
  ++ format_int false 0 (microseconds t) ++ "ms".

(** The line [msg] prints for a rendered text. *)
Definition display (text : string) : string := START_OF_PREV_LINE ++ text.

(** What the handler prints: the one final display, on a line of its own
    in final-only mode and followed by the exit notice otherwise. *)
Definition final_display (final_only : bool) (text : string) : list string :=
  if final_only then [EmptyString; display text]
  else [display text; "KeyboardInterrupt: exiting"].

(** The elapsed time after a tick: unchanged when the interval is above
    the threshold, otherwise longer by the interval. *)
Definition next_elapsed (threshold : Z) (e : timedelta)
    (checkpoint t : datetime) : timedelta :=
  if t - checkpoint >? threshold then e
  else timedelta_of_microseconds (total_microseconds e + (t - checkpoint)).

(** The blank line that a tick prints on a gap, unless the run is
    silent. *)
Definition gap_lines (final_only : bool) (threshold : Z)
    (checkpoint t : datetime) : list string :=
  if final_only then []
  else if t - checkpoint >? threshold then [EmptyString] else [].

(** The lines of the iterations that run to their end: for each reading
    the blank line of a gap and one display of the elapsed time, and
    nothing when the run is silent.  [text] is what the template shows of
    an elapsed time. *)
Fixpoint loop_lines (text : timedelta -> string) (final_only : bool)
    (threshold : Z) (e : timedelta) (checkpoint : datetime)
    (ticks : list datetime) : list string :=
  match ticks with
  | [] => []
  | t :: rest =>
      let e' := next_elapsed threshold e checkpoint t in
      (gap_lines final_only threshold checkpoint t
       ++ (if final_only then [] else [display (text e')])
       ++ loop_lines text final_only threshold e' t rest)%list
  end.

(** The elapsed times that the loop holds after each of a sequence of
    readings. *)
Fixpoint elapsed_after (threshold : Z) (e : timedelta) (checkpoint : datetime)
    (ticks : list datetime) : list timedelta :=
  match ticks with
  | [] => []
  | t :: rest =>
      let e' := next_elapsed threshold e checkpoint t in
      e' :: elapsed_after threshold e' t rest
  end.

(** The elapsed time of the last accounting before the interrupt. *)
Definition final_elapsed (threshold : Z) (initial : timedelta) (w : world)
  : timedelta :=
  last (elapsed_after threshold initial (clock_start w) (accounted w)) initial.

(** The elapsed times that a run displays: the one of each iteration that
    runs to its end, unless the run is silent, and the one the handler is
    given. *)
Definition displayed (final_only : bool) (threshold : Z) (initial : timedelta)
    (w : world) : list timedelta :=
  ((if final_only then []
    else elapsed_after threshold initial (clock_start w) (clock_ticks w))
   ++ [final_elapsed threshold initial w])%list.

(** What a run has printed when the handler takes over: the opening blank
    line, the lines of the loop, and the blank line of a gap found in the
    interrupted iteration. *)
Definition shown_by_loop (text : timedelta -> string) (final_only : bool)
    (threshold : Z) (initial : timedelta) (w : world) : list string :=
  ((if final_only then [] else [EmptyString])
   ++ loop_lines text final_only threshold initial (clock_start w) (clock_ticks w)
   ++ match interrupt w with
      | before_display end_ =>
          gap_lines final_only threshold
                    (last (clock_ticks w) (clock_start w)) end_
      | _ => []
      end)%list.

(** A line is a display of the elapsed time: it starts by moving the
    cursor to the previous line. *)
Definition is_display (line : string) : bool :=
  match Str.strip_prefix START_OF_PREV_LINE line with
  | Some _ => true
  | None => false
  end.

Definition count_displays (lines : list string) : nat :=
  List.length (List.filter is_display lines).

(** [s] is a run of digits, one at least, that denotes [n]. *)
Definition denotes (s : string) (n : Z) : Prop :=
  s <> EmptyString /\ Str.all is_digit s = true /\ numeral_value s = n.

(** [s] is a decimal numeral that denotes [n] and has no more digits than
    [int] reads. *)
Definition numeral (s : string) (n : Z) : Prop :=
  s <> EmptyString /\ Str.all is_digit s = true /\ numeral_value s = n
  /\ Z.of_nat (String.length s) <= MAX_STR_DIGITS.

(** The seconds field as [str(timedelta)] writes it: a numeral and an
    optional fraction. *)
Definition seconds_text (S : string) (suffix : option string) : string :=
  S ++ match suffix with Some F => "." ++ F | None => EmptyString end.

(** Hours, minutes and the seconds field between colons. *)
Definition clock_text (H M S : string) (suffix : option string) : string :=
  H ++ ":" ++ M ++ ":" ++ seconds_text S suffix.

(** The texts of the canonical form: an optional day prefix in the plural,
    then the clock. *)
Definition canonical (prefix : option string) (H M S : string)
    (suffix : option string) : string :=
  (match prefix with Some D => D ++ DAYS_SEP | None => EmptyString end)
  ++ clock_text H M S suffix.

(** The length, in microseconds, that the five fields of a [TimeInfo]
    stand for when each is taken in its own unit. *)
Definition field_total (t : TimeInfo) : Z :=
  (((days t * 24 + hours t) * 60 + minutes t) * 60 + seconds t) * 1000000
  + microseconds t.

(** The clock never goes back over the readings that follow a checkpoint. *)
Fixpoint nondecreasing (checkpoint : datetime) (ticks : list datetime) : Prop :=
  match ticks with
  | [] => True
  | t :: rest => checkpoint <= t /\ nondecreasing t rest
  end.

(** No interval between consecutive readings is above the threshold. *)
Fixpoint no_gap (threshold : Z) (checkpoint : datetime)
    (ticks : list datetime) : Prop :=
  match ticks with
  | [] => True
  | t :: rest => t - checkpoint <= threshold /\ no_gap threshold t rest
  end.

(* ================================================================== *)
(** * Facts about the string operations *)
(* ================================================================== *)

Module StrFacts.

Lemma append_nil_r (s : string) : s ++ EmptyString = s.
Proof. induction s as [|c s IH]; simpl; [reflexivity | now rewrite IH]. Qed.

Lemma append_assoc (a b c : string) : (a ++ b) ++ c = a ++ b ++ c.
Proof. induction a as [|x a IH]; simpl; [reflexivity | now rewrite IH]. Qed.

Lemma all_app (p : ascii -> bool) (a b : string) :
  Str.all p (a ++ b) = Str.all p a && Str.all p b.
Proof.
  induction a as [|x a IH]; simpl; [reflexivity|].
  rewrite IH. now rewrite andb_assoc.
Qed.

Lemma all_impl (p q : ascii -> bool) (s : string) :
  (forall c, p c = true -> q c = true) ->
  Str.all p s = true -> Str.all q s = true.
Proof.
  intros Hpq. induction s as [|x s IH]; simpl; [reflexivity|].
  intros H. apply andb_true_iff in H as [Hx Hs].
  apply andb_true_iff. split; auto.
Qed.

Lemma mem_app (c : ascii) (a b : string) :
  Str.mem c (a ++ b) = Str.mem c a || Str.mem c b.
Proof.
  induction a as [|x a IH]; simpl; [reflexivity|].
  rewrite IH. now rewrite orb_assoc.
Qed.

Lemma count_app (c : ascii) (a b : string) :
  Str.count c (a ++ b) = (Str.count c a + Str.count c b)%nat.
Proof.
  induction a as [|x a IH]; simpl; [reflexivity|].
  destruct (Ascii.eqb x c); simpl; now rewrite IH.
Qed.

Lemma count_0_mem (c : ascii) (s : string) :
  Str.count c s = O <-> Str.mem c s = false.
Proof.
  induction s as [|x s IH]; simpl; [tauto|].
  destruct (Ascii.eqb x c); simpl; [split; discriminate | exact IH].
Qed.

(** A string none of whose characters is [c] satisfies "is not [c]". *)
Lemma mem_false_all (c : ascii) (s : string) :
  Str.mem c s = false <-> Str.all (fun a => negb (Ascii.eqb a c)) s = true.
Proof.
  induction s as [|x s IH]; simpl; [tauto|].
  destruct (Ascii.eqb x c); simpl; [split; discriminate | exact IH].
Qed.

Lemma strip_prefix_correct (p s r : string) :
  Str.strip_prefix p s = Some r -> s = p ++ r.
Proof.
  revert s. induction p as [|a p IH]; intros s H; simpl in *.
  - now inversion H.
  - destruct s as [|b s]; [discriminate|].
    destruct (Ascii.eqb_spec a b) as [->|]; [|discriminate].
    now rewrite (IH _ H).
Qed.

Lemma strip_prefix_app (p r : string) : Str.strip_prefix p (p ++ r) = Some r.
Proof.
  induction p as [|a p IH]; simpl; [reflexivity|].
  now rewrite Ascii.eqb_refl.
Qed.

(** [find] cuts the string around an occurrence of the separator. *)
Lemma find_correct (sep s before after : string) :
  Str.find sep s = Some (before, after) -> s = before ++ sep ++ after.
Proof.
  revert before. induction s as [|c s IH]; intros before H.
  - simpl in H. destruct (Str.strip_prefix sep EmptyString) eqn:E; [|discriminate].
    inversion H; subst. simpl. now apply strip_prefix_correct.
  - cbn [Str.find] in H.
    destruct (Str.strip_prefix sep (String c s)) eqn:E.
    + inversion H; subst. simpl. now apply strip_prefix_correct.
    + destruct (Str.find sep s) as [[b a]|] eqn:F; [|discriminate].
      inversion H; subst. simpl. now rewrite (IH _ eq_refl).
Qed.

(** For a one-character separator the cut is at its first occurrence. *)
Lemma find_char_first (c : ascii) (s before after : string) :
  Str.find (String c EmptyString) s = Some (before, after) ->
  Str.mem c before = false.
Proof.
  revert before. induction s as [|x s IH]; intros before H.
  - simpl in H. discriminate.
  - cbn [Str.find Str.strip_prefix] in H.
    destruct (Ascii.eqb_spec c x) as [->|Hne].
    + inversion H; subst. reflexivity.
    + destruct (Str.find (String c EmptyString) s) as [[b a]|] eqn:F; [|discriminate].
      inversion H; subst. simpl.
      rewrite (IH _ eq_refl), orb_false_r.
      apply Ascii.eqb_neq. congruence.
Qed.

Lemma contains_char_mem (c : ascii) (s : string) :
  Str.contains (String c EmptyString) s = Str.mem c s.
Proof.
  unfold Str.contains. induction s as [|x s IH]; [reflexivity|].
  cbn [Str.find Str.strip_prefix Str.mem].
  rewrite (Ascii.eqb_sym c x).
  destruct (Ascii.eqb x c); [reflexivity|]. simpl.
  rewrite <- IH.
  now destruct (Str.find (String c EmptyString) s) as [[b a]|].
Qed.

(** Without the first character of the separator there is no separator. *)
Lemma find_none (c : ascii) (sep s : string) :
  Str.mem c s = false -> Str.find (String c sep) s = None.
Proof.
  induction s as [|x s IH]; intros H; [reflexivity|].
  simpl in H. apply orb_false_iff in H as [Hx Hs].
  cbn [Str.find Str.strip_prefix].
  rewrite (Ascii.eqb_sym c x), Hx. now rewrite (IH Hs).
Qed.

(** The first occurrence is found behind text free of the separator's
    first character. *)
Lemma find_app (c : ascii) (sep before after : string) :
  Str.mem c before = false ->
  Str.find (String c sep) (before ++ String c sep ++ after) = Some (before, after).
Proof.
  induction before as [|x b IH]; intros H.
  - change (EmptyString ++ String c sep ++ after) with (String c sep ++ after).
    destruct (String c sep ++ after) eqn:E; [discriminate|].
    rewrite <- E. 
    assert (Str.strip_prefix (String c sep) (String c sep ++ after) = Some after)
      by apply strip_prefix_app.
    rewrite E in *. cbn [Str.find]. now rewrite H0.
  - simpl in H. apply orb_false_iff in H as [Hx Hb].
    change (String x b ++ String c sep ++ after)
      with (String x (b ++ String c sep ++ after)).
    cbn [Str.find Str.strip_prefix].
    rewrite (Ascii.eqb_sym c x), Hx. now rewrite (IH Hb).
Qed.

Lemma split_nonempty (c : ascii) (s : string) : Str.split c s <> [].
Proof.
  destruct s as [|x s]; simpl; [discriminate|].
  destruct (Ascii.eqb x c); [discriminate|].
  destruct (Str.split c s); discriminate.
Qed.

Lemma split_join (c : ascii) (s : string) : Str.join c (Str.split c s) = s.
Proof.
  induction s as [|x s IH]; [reflexivity|].
  simpl. destruct (Ascii.eqb_spec x c) as [->|Hne].
  - pose proof (split_nonempty c s).
    destruct (Str.split c s) as [|p ps] eqn:E; [contradiction|].
    cbn [Str.join]. simpl. now rewrite <- IH.
  - pose proof (split_nonempty c s).
    destruct (Str.split c s) as [|p ps] eqn:E; [contradiction|].
    destruct ps; simpl in *; now rewrite <- IH.
Qed.

(** [split] in front of the first separator. *)
Lemma split_app (c : ascii) (a b : string) :
  Str.mem c a = false ->
  Str.split c (a ++ String c b) = a :: Str.split c b.
Proof.
  induction a as [|x a IH]; intros H; simpl.
  - now rewrite Ascii.eqb_refl.
  - simpl in H. apply orb_false_iff in H as [Hx Ha].
    rewrite Hx, (IH Ha). reflexivity.
Qed.

Lemma split_no_sep (c : ascii) (s : string) :
  Str.mem c s = false -> Str.split c s = [s].
Proof.
  induction s as [|x s IH]; intros H; [reflexivity|].
  simpl in H. apply orb_false_iff in H as [Hx Hs].
  simpl. now rewrite Hx, (IH Hs).
Qed.

End StrFacts.

(* ================================================================== *)
(** * Facts about [int] *)
(* ================================================================== *)

Module IntFacts.

Import StrFacts.

Lemma digit_of_range (c : ascii) (d : Z) : digit_of c = Some d -> 0 <= d <= 9.
Proof.
  unfold digit_of. intros H.
  destruct ((48 <=? Z.of_nat (nat_of_ascii c)) && (Z.of_nat (nat_of_ascii c) <=? 57)) eqn:E;
    [|discriminate].
  inversion H; subst. lia.
Qed.

Lemma is_digit_not_space (c : ascii) : is_digit c = true -> Str.is_space c = false.
Proof. destruct c as [[] [] [] [] [] [] [] []]; vm_compute; congruence. Qed.

(** A digit is different from every character that is not one. *)
Lemma is_digit_neq (c x : ascii) :
  is_digit c = true -> is_digit x = false -> Ascii.eqb c x = false.
Proof.
  intros Hc Hx. destruct (Ascii.eqb_spec c x) as [->|]; congruence.
Qed.

Lemma all_digits_not_mem (x : ascii) (s : string) :
  is_digit x = false -> Str.all is_digit s = true -> Str.mem x s = false.
Proof.
  intros Hx. induction s as [|c s IH]; simpl; [reflexivity|].
  intros H. apply andb_true_iff in H as [Hc Hs].
  now rewrite (is_digit_neq _ _ Hc Hx), (IH Hs).
Qed.

Lemma lstrip_all (p : ascii -> bool) (s : string) :
  Str.all p s = true -> Str.all p (Str.lstrip s) = true.
Proof.
  induction s as [|c s IH]; simpl; [reflexivity|].
  intros H. destruct (Str.is_space c); [|exact H].
  apply andb_true_iff in H as [_ Hs]. auto.
Qed.

Lemma rstrip_all (p : ascii -> bool) (s : string) :
  Str.all p s = true -> Str.all p (Str.rstrip s) = true.
Proof.
  induction s as [|c s IH]; simpl; [reflexivity|].
  intros H. apply andb_true_iff in H as [Hc Hs].
  specialize (IH Hs).
  destruct (Str.rstrip s) as [|x r].
  - destruct (Str.is_space c); simpl; [reflexivity | now rewrite Hc].
  - simpl in *. now rewrite Hc.
Qed.

Lemma strip_all (p : ascii -> bool) (s : string) :
  Str.all p s = true -> Str.all p (Str.strip s) = true.
Proof. intros H. apply rstrip_all, lstrip_all, H. Qed.

Lemma rstrip_no_space (s : string) :
  Str.all (fun c => negb (Str.is_space c)) s = true -> Str.rstrip s = s.
Proof.
  induction s as [|c s IH]; simpl; [reflexivity|].
  intros H. apply andb_true_iff in H as [Hc Hs].
  rewrite (IH Hs). destruct s; [|reflexivity].
  apply negb_true_iff in Hc. now rewrite Hc.
Qed.

Lemma strip_digits (s : string) : Str.all is_digit s = true -> Str.strip s = s.
Proof.
  intros H. unfold Str.strip.
  assert (Hl : Str.lstrip s = s).
  { destruct s as [|c s]; [reflexivity|]. simpl in *.
    apply andb_true_iff in H as [Hc _].
    now rewrite (is_digit_not_space _ Hc). }
  rewrite Hl. apply rstrip_no_space.
  eapply all_impl; [|exact H].
  intros c Hc. now rewrite (is_digit_not_space _ Hc).
Qed.

Lemma int_body_nonneg (s : string) (acc : Z) (b : bool) (n : Z) :
  0 <= acc -> int_body acc b s = Some n -> 0 <= n.
Proof.
  revert acc b. induction s as [|c s IH]; intros acc b Hacc H; simpl in H.
  - destruct b; [|discriminate]. inversion H; subst. exact Hacc.
  - destruct (digit_of c) as [d|] eqn:D.
    + apply digit_of_range in D. apply (IH (10 * acc + d) true); [lia | exact H].
    + destruct (Ascii.eqb c "_" && b); [|discriminate].
      eapply IH; eassumption.
Qed.

(** [int] returns what [int_value] reads in the stripped text, when the
    digits are within the limit. *)
Lemma int_inv (s : string) (n : Z) :
  int_ s = Ok n ->
  int_value (Str.strip s) = Some n /\ digit_count (Str.strip s) <= MAX_STR_DIGITS.
Proof.
  unfold int_. destruct (int_value (Str.strip s)) as [v|]; [|discriminate].
  destruct (MAX_STR_DIGITS <? digit_count (Str.strip s)) eqn:L; [discriminate|].
  intros H. inversion H; subst. apply Z.ltb_ge in L. now split.
Qed.

Lemma int_intro (s : string) (n : Z) :
  int_value (Str.strip s) = Some n ->
  digit_count (Str.strip s) <= MAX_STR_DIGITS ->
  int_ s = Ok n.
Proof.
  unfold int_. intros -> L. apply Z.ltb_ge in L. now rewrite L.
Qed.

(** [int] raises nothing but [ValueError]. *)
Lemma int_raises (s : string) (e : exn) : int_ s = Raise e -> e = ValueError.
Proof.
  unfold int_. destruct (int_value (Str.strip s)) as [v|]; [|congruence].
  destruct (MAX_STR_DIGITS <? digit_count (Str.strip s)); congruence.
Qed.

Lemma digit_count_nonneg (s : string) : 0 <= digit_count s.
Proof.
  induction s as [|c s IH]; simpl; [lia|]. destruct (digit_of c); lia.
Qed.

Lemma digit_count_digits (s : string) :
  Str.all is_digit s = true -> digit_count s = Z.of_nat (String.length s).
Proof.
  induction s as [|c s IH]; [reflexivity|].
  cbn [Str.all digit_count String.length]. intros H.
  apply andb_true_iff in H as [Hc Hs]. rewrite (IH Hs).
  unfold is_digit in Hc. destruct (digit_of c); [lia | discriminate].
Qed.

(** Without a minus sign in the text, [int] gives no negative number. *)
Lemma int_nonneg (s : string) (n : Z) :
  Str.mem "-" s = false -> int_ s = Ok n -> 0 <= n.
Proof.
  intros Hm H. apply int_inv in H as [H _]. unfold int_value in H.
  apply mem_false_all, strip_all in Hm.
  destruct (Str.strip s) as [|c r]; [discriminate|].
  simpl in Hm. apply andb_true_iff in Hm as [Hc _].
  apply negb_true_iff in Hc. rewrite Hc in H.
  destruct (Ascii.eqb c "+").
  - destruct (int_body 0 false r) eqn:E; [|discriminate].
    inversion H; subst. apply (int_body_nonneg _ 0 false _ (Z.le_refl 0) E).
  - destruct (int_body 0 false (String c r)) eqn:E; [|discriminate].
    inversion H; subst. apply (int_body_nonneg _ 0 false _ (Z.le_refl 0) E).
Qed.

End IntFacts.

(* ================================================================== *)
(** * The parser *)
(* ================================================================== *)

Module Parser.

Import StrFacts IntFacts.

(** [int_body] reads a run of digits as the number it denotes. *)
Lemma int_body_digits (s : string) (acc : Z) (b : bool) :
  Str.all is_digit s = true ->
  (s <> EmptyString \/ b = true) ->
  int_body acc b s
  = Some (acc * 10 ^ Z.of_nat (String.length s) + numeral_value s).
Proof.
  revert acc b. induction s as [|c r IH]; intros acc b Hall Hne.
  - destruct Hne as [Hne | ->]; [contradiction|]. simpl. f_equal. lia.
  - simpl in Hall. apply andb_true_iff in Hall as [Hc Hr].
    cbn [int_body numeral_value String.length].
    unfold digit_value. unfold is_digit in Hc.
    destruct (digit_of c) as [d|]; [|discriminate].
    rewrite (IH _ true Hr (or_intror eq_refl)).
    rewrite Nat2Z.inj_succ, Z.pow_succ_r by lia. f_equal. ring.
Qed.

(** [int] on a non-empty run of digits within the limit. *)
Lemma int_digits (s : string) :
  s <> EmptyString -> Str.all is_digit s = true ->
  Z.of_nat (String.length s) <= MAX_STR_DIGITS ->
  int_ s = Ok (numeral_value s).
Proof.
  intros Hne Hall Hlen. apply int_intro; rewrite (strip_digits _ Hall).
  - unfold int_value. destruct s as [|c r]; [contradiction|].
    assert (Hc : is_digit c = true)
      by (simpl in Hall; now apply andb_true_iff in Hall).
    rewrite (is_digit_neq c "-" Hc eq_refl), (is_digit_neq c "+" Hc eq_refl).
    rewrite (int_body_digits _ 0 false Hall (or_introl Hne)). reflexivity.
  - now rewrite digit_count_digits.
Qed.

(** Without an underscore, what [int_body] accepts is a run of digits. *)
Lemma int_body_literal (s : string) (acc : Z) (b : bool) (n : Z) :
  int_body acc b s = Some n -> Str.mem "_" s = false ->
  Str.all is_digit s = true
  /\ n = acc * 10 ^ Z.of_nat (String.length s) + numeral_value s.
Proof.
  revert acc b. induction s as [|c r IH]; intros acc b H U.
  - simpl in H. destruct b; [|discriminate]. inversion H; subst.
    split; [reflexivity|]. simpl. lia.
  - cbn [int_body] in H. cbn [Str.mem] in U.
    apply orb_false_iff in U as [Uc Ur].
    rewrite Uc in H. cbn [andb] in H.
    cbn [Str.all numeral_value String.length]. unfold is_digit, digit_value.
    destruct (digit_of c) as [d|]; [|discriminate].
    destruct (IH _ _ H Ur) as [A ->]. split; [exact A|].
    rewrite Nat2Z.inj_succ, Z.pow_succ_r by lia. ring.
Qed.

Lemma permitted_char (c : ascii) :
  Str.mem c PERMITTED = true ->
  Ascii.eqb c "-" = false /\ Ascii.eqb c "+" = false /\ Ascii.eqb c "_" = false.
Proof. destruct c as [[] [] [] [] [] [] [] []]; vm_compute; intuition congruence. Qed.

(** On a text of permitted characters, what [int] returns is the integer
    written in it: the text, blanks apart, is a run of digits and the
    result is the number they denote. *)
Lemma int_literal (s : string) (n : Z) :
  permitted s = true -> int_ s = Ok n ->
  Str.all is_digit (Str.strip s) = true /\ n = written s.
Proof.
  intros P H. apply int_inv in H as [H _]. unfold written.
  unfold permitted in P. apply strip_all in P. unfold int_value in H.
  destruct (Str.strip s) as [|c r] eqn:E; [discriminate|].
  assert (U : Str.mem "_" (String c r) = false).
  { apply mem_false_all. eapply all_impl; [|exact P].
    intros x Hx. apply permitted_char in Hx as (_ & _ & Hx).
    now rewrite Hx. }
  cbn [Str.all] in P. apply andb_true_iff in P as [Pc _].
  apply permitted_char in Pc as (Pm & Pp & _). rewrite Pm, Pp in H.
  destruct (int_body_literal _ _ _ _ H U) as [A ->]. split; [exact A|]. lia.
Qed.

Lemma digits_permitted (s : string) : Str.all is_digit s = true -> permitted s = true.
Proof.
  apply all_impl. intros c.
  destruct c as [[] [] [] [] [] [] [] []]; vm_compute; congruence.
Qed.

Lemma permitted_app (a b : string) : permitted (a ++ b) = permitted a && permitted b.
Proof. apply all_app. Qed.

(** A text without a space has no day prefix. *)
Lemma split_days_no_space (s : string) :
  Str.mem " " s = false -> split_days s = ("0", s).
Proof.
  intros H. unfold split_days, Str.contains, DAYS_SEP.
  now rewrite (find_none _ _ _ H).
Qed.

(** What a successful parse went through, step by step. *)
Lemma from_timestr_inv (timestr : string) (t : TimeInfo) :
  from_timestr timestr = Ok t ->
  permitted timestr = true /\
  exists d seg h m sf s us,
    split_days timestr = (d, seg) /\
    split_time seg = Ok (h, m, sf) /\
    split_seconds sf = (s, us) /\
    int_ d = Ok (days t) /\ int_ h = Ok (hours t) /\ int_ m = Ok (minutes t) /\
    int_ s = Ok (seconds t) /\ int_ us = Ok (microseconds t).
Proof.
  intros H. unfold from_timestr in H. fold (permitted timestr) in H.
  destruct (permitted timestr); [|discriminate]. cbn [negb] in H.
  destruct (split_days timestr) as [d seg] eqn:D.
  destruct (split_time seg) as [[[h m] sf]|] eqn:T; [|discriminate].
  cbn [rbind] in H.
  destruct (split_seconds sf) as [s us] eqn:S.
  destruct (int_ d) as [nd|] eqn:Ed; [|discriminate].
  destruct (int_ h) as [nh|] eqn:Eh; [|discriminate].
  destruct (int_ m) as [nm|] eqn:Em; [|discriminate].
  destruct (int_ s) as [ns|] eqn:Es; [|discriminate].
  destruct (int_ us) as [nus|] eqn:Eus; [|discriminate].
  cbn [rbind] in H. inversion H; subst. cbn.
  split; [reflexivity|].
  exists d, seg, h, m, sf, s, us. intuition auto.
Qed.

(** The three steps of the parser, as equations between texts. *)
Lemma split_days_spec (timestr d seg : string) :
  split_days timestr = (d, seg) ->
  (Str.contains DAYS_SEP timestr = false /\ d = "0" /\ seg = timestr)
  \/ (Str.contains DAYS_SEP timestr = true /\ timestr = d ++ DAYS_SEP ++ seg).
Proof.
  unfold split_days, Str.contains, Str.partition.
  destruct (Str.find DAYS_SEP timestr) as [[b a]|] eqn:F; intros H; inversion H; subst.
  - right. split; [reflexivity|]. now apply find_correct.
  - left. auto.
Qed.

Lemma split_time_spec (seg h m sf : string) :
  split_time seg = Ok (h, m, sf) ->
  (Str.count ":" seg = 0%nat /\ h = "0" /\ m = "0" /\ sf = seg)
  \/ (Str.count ":" seg = 1%nat /\ h = "0" /\ seg = m ++ ":" ++ sf)
  \/ (Str.count ":" seg = 2%nat /\ seg = h ++ ":" ++ m ++ ":" ++ sf).
Proof.
  unfold split_time. intros H.
  pose proof (split_join ":" seg) as J.
  destruct (Str.count ":" seg) as [|[|[|n]]]; [| | |discriminate].
  - inversion H; subst. left. auto.
  - destruct (Str.split ":" seg) as [|x [|y [|z l]]]; try discriminate.
    inversion H; subst. right; left. auto.
  - destruct (Str.split ":" seg) as [|x [|y [|z [|u l]]]]; try discriminate.
    inversion H; subst. right; right. auto.
Qed.

Lemma split_seconds_spec (sf s us : string) :
  split_seconds sf = (s, us) ->
  (Str.mem "." sf = false /\ s = sf /\ us = "0")
  \/ (sf = s ++ "." ++ us /\ Str.mem "." s = false).
Proof.
  unfold split_seconds. rewrite contains_char_mem.
  unfold Str.partition.
  destruct (Str.find "." sf) as [[b a]|] eqn:F.
  - pose proof (find_correct _ _ _ _ F) as E.
    assert (M : Str.mem "." sf = true)
      by (rewrite E, !mem_app; simpl; now rewrite orb_true_r).
    rewrite M. intros H; inversion H; subst. right.
    split; [reflexivity|]. eapply find_char_first, F.
  - destruct (Str.mem "." sf) eqn:M; intros H; inversion H; subst.
    + rewrite <- contains_char_mem in M. unfold Str.contains in M.
      rewrite F in M. discriminate.
    + left. auto.
Qed.

(** The pieces are made of characters of the text. *)
Lemma pieces_all (p : ascii -> bool) (timestr d seg h m sf s us : string) :
  p "0"%char = true -> Str.all p timestr = true ->
  split_days timestr = (d, seg) -> split_time seg = Ok (h, m, sf) ->
  split_seconds sf = (s, us) ->
  Str.all p d = true /\ Str.all p h = true /\ Str.all p m = true
  /\ Str.all p s = true /\ Str.all p us = true.
Proof.
  intros P0 Hall D T S.
  assert (Z0 : Str.all p "0" = true) by (simpl; now rewrite P0).
  assert (Hd : Str.all p d = true /\ Str.all p seg = true).
  { destruct (split_days_spec _ _ _ D) as [(_ & -> & ->)|(_ & E)]; [auto|].
    rewrite E, !all_app in Hall.
    apply andb_true_iff in Hall as [Hd Hr]. apply andb_true_iff in Hr as [_ Hr]. auto. }
  destruct Hd as [Hd Hseg].
  assert (Ht : Str.all p h = true /\ Str.all p m = true /\ Str.all p sf = true).
  { destruct (split_time_spec _ _ _ _ T) as [(_ & -> & -> & ->)|[(_ & -> & E)|(_ & E)]];
      [auto| |]; rewrite E, !all_app in Hseg;
      repeat match goal with H : _ && _ = true |- _ => apply andb_true_iff in H as [? H] end;
      auto. }
  destruct Ht as (Hh & Hm & Hsf).
  assert (Hs : Str.all p s = true /\ Str.all p us = true).
  { destruct (split_seconds_spec _ _ _ S) as [(_ & -> & ->)|(E & _)]; [auto|].
    rewrite E, !all_app in Hsf.
    apply andb_true_iff in Hsf as [Hs Hr]. apply andb_true_iff in Hr as [_ Hr]. auto. }
  tauto.
Qed.

Lemma permitted_not_minus (c : ascii) :
  Str.mem c PERMITTED = true -> negb (Ascii.eqb c "-") = true.
Proof. destruct c as [[] [] [] [] [] [] [] []]; vm_compute; congruence. Qed.

(** ** C10 *)

(** C10: text made of permitted characters only can still fail to parse:
    ["1:30:00."] (nothing after the point), ["::"] (empty fields) and the
    empty text all pass the character check and raise [ValueError]. *)
Theorem permitted_characters_not_sufficient :
  (permitted "1:30:00." = true /\ from_timestr "1:30:00." = Raise ValueError)
  /\ (permitted "::" = true /\ from_timestr "::" = Raise ValueError)
  /\ (permitted EmptyString = true /\ from_timestr EmptyString = Raise ValueError).
Proof. repeat split; vm_compute; reflexivity. Qed.

(** ** C4 *)

(** A text [w.f] of two numerals is accepted, with [seconds = w] and
    [microseconds = f] as numbers. *)
Lemma fraction_of_numerals (w f : string) :
  w <> EmptyString -> f <> EmptyString ->
  Str.all is_digit w = true -> Str.all is_digit f = true ->
  Z.of_nat (String.length w) <= MAX_STR_DIGITS ->
  Z.of_nat (String.length f) <= MAX_STR_DIGITS ->
  from_timestr (w ++ "." ++ f)
  = Ok (mk_TimeInfo 0 0 0 (numeral_value w) (numeral_value f)).
Proof.
  intros Hw Hf Dw Df Lw Lf. unfold from_timestr. fold (permitted (w ++ "." ++ f)).
  rewrite !permitted_app, (digits_permitted _ Dw), (digits_permitted _ Df).
  change (permitted ".") with true. cbn [andb negb].
  rewrite split_days_no_space
    by (rewrite !mem_app, (all_digits_not_mem " " w), (all_digits_not_mem " " f); auto).
  unfold split_time.
  assert (Hcolon : Str.count ":" (w ++ "." ++ f) = O).
  { apply count_0_mem.
    rewrite !mem_app, (all_digits_not_mem ":" w), (all_digits_not_mem ":" f); auto. }
  rewrite Hcolon. cbn [rbind].
  unfold split_seconds, Str.contains, Str.partition.
  rewrite (find_app "." EmptyString w f (all_digits_not_mem "." w eq_refl Dw)).
  change (int_ "0") with (Ok (A:=Z) 0). cbn [rbind].
  rewrite (int_digits w Hw Dw Lw), (int_digits f Hf Df Lf). reflexivity.
Qed.

(** The pieces of an accepted text, and what [int] made of each. *)
Lemma from_timestr_written (timestr : string) (t : TimeInfo) :
  from_timestr timestr = Ok t ->
  exists d h m s us,
    field_texts timestr = Some (d, h, m, s, us)
    /\ seconds_field timestr
       = (if Str.mem "." (seconds_field timestr) then s ++ "." ++ us else s)
    /\ Str.mem "." s = false
    /\ Str.all is_digit (Str.strip us) = true
    /\ days t = written d /\ hours t = written h /\ minutes t = written m
    /\ seconds t = written s /\ microseconds t = written us.
Proof.
  intros H.
  destruct (from_timestr_inv _ _ H)
    as (P & d & seg & h & m & sf & s & us & D & T & S & Id & Ih & Im & Is & Ius).
  destruct (pieces_all (fun c => Str.mem c PERMITTED) _ _ _ _ _ _ _ _
              eq_refl P D T S) as (Pd & Ph & Pm & Ps & Pus).
  exists d, h, m, s, us.
  assert (SF : seconds_field timestr = sf)
    by (unfold seconds_field, time_segment; rewrite D; cbn [snd]; now rewrite T).
  rewrite SF.
  split; [unfold field_texts; now rewrite D, T, S|].
  destruct (int_literal _ _ Pd Id) as [_ ->].
  destruct (int_literal _ _ Ph Ih) as [_ ->].
  destruct (int_literal _ _ Pm Im) as [_ ->].
  destruct (int_literal _ _ Ps Is) as [_ ->].
  destruct (int_literal _ _ Pus Ius) as [A ->].
  destruct (split_seconds_spec _ _ _ S) as [(M & -> & ->)|(E & M)].
  - rewrite M. auto 10.
  - assert (M' : Str.mem "." sf = true)
      by (rewrite E, !mem_app; simpl; now rewrite orb_true_r).
    rewrite M'. auto 10.
Qed.

(** C4: the digits after the point of the seconds field are read as a
    plain integer number of microseconds, whatever their count.  In every
    accepted text whose seconds field is [s.us] (the point being its
    first), the text [us], blanks apart, is a run of digits,
    [microseconds] is the number these digits denote and [seconds] the
    number written in [s]; and every text [w.f] of two numerals (of no
    more digits than [int] reads) is accepted, with [seconds = w] and
    [microseconds = f] as numbers. *)
Theorem fraction_read_literally (timestr : string) (t : TimeInfo)
    (s us w f : string) :
  (from_timestr timestr = Ok t ->
   seconds_field timestr = s ++ "." ++ us -> Str.mem "." s = false ->
   Str.all is_digit (Str.strip us) = true
   /\ microseconds t = numeral_value (Str.strip us)
   /\ seconds t = numeral_value (Str.strip s))
  /\ (w <> EmptyString -> f <> EmptyString ->
      Str.all is_digit w = true -> Str.all is_digit f = true ->
      Z.of_nat (String.length w) <= MAX_STR_DIGITS ->
      Z.of_nat (String.length f) <= MAX_STR_DIGITS ->
      from_timestr (w ++ "." ++ f)
      = Ok (mk_TimeInfo 0 0 0 (numeral_value w) (numeral_value f))).
Proof.
  split; [|apply fraction_of_numerals].
  intros H E M.
  destruct (from_timestr_written _ _ H)
    as (d & h & m & s' & us' & _ & SF & M' & A & _ & _ & _ & Hs & Hus).
  assert (Mp : Str.mem "." (seconds_field timestr) = true)
    by (rewrite E, !mem_app; simpl; now rewrite orb_true_r).
  rewrite Mp in SF. rewrite E in SF.
  pose proof (find_app "." EmptyString s us M) as F1.
  pose proof (find_app "." EmptyString s' us' M') as F2.
  change (s ++ "." ++ us = s' ++ "." ++ us') in SF.
  rewrite SF, F2 in F1. inversion F1; subst s' us'.
  unfold written in Hs, Hus. auto.
Qed.

(** ["1.5"] means one second and five microseconds, not 500000; and so in a
    longer text. *)
Lemma fraction_read_literally_witness :
  (Str.all is_digit (Str.strip "5") = true
   /\ microseconds (mk_TimeInfo 2 3 4 1 5) = numeral_value (Str.strip "5")
   /\ seconds (mk_TimeInfo 2 3 4 1 5) = numeral_value (Str.strip "1"))
  /\ from_timestr ("1" ++ "." ++ "5")
     = Ok (mk_TimeInfo 0 0 0 (numeral_value "1") (numeral_value "5")).
Proof.
  destruct (fraction_read_literally "2 days, 3:04:1.5" (mk_TimeInfo 2 3 4 1 5)
              "1" "5" "1" "5") as [L A].
  split.
  - apply L; reflexivity.
  - apply A; try discriminate; try reflexivity; unfold MAX_STR_DIGITS; simpl; lia.
Defined.

(** ** C5 *)



(** ** C6 *)

(** C6: a text with a character outside the permitted set fails the check
    at the head of the parser ([AssertionError]), and a text of permitted
    characters with three or more colons in its time segment is refused
    ([ValueError]); either way [main] stops in [parse_args], before
    [timer] is called: nothing is printed and no loop runs. *)
Theorem malformed_text_rejected (timestr : string) :
  permitted timestr = false \/ (3 <= Str.count ":" (time_segment timestr))%nat ->
  from_timestr timestr
  = Raise (if permitted timestr then ValueError else AssertionError)
  /\ forall (py : library) (a : argv) (w : world) (out : list string),
      arg_initial_time a = Some timestr ->
      main py a w out
      = (Raise (if permitted timestr then SystemExit 2 else AssertionError), out).
Proof.
  intros H.
  assert (E : from_timestr timestr
              = Raise (if permitted timestr then ValueError else AssertionError)).
  { unfold from_timestr. fold (permitted timestr).
    destruct (permitted timestr) eqn:P; [|reflexivity]. cbn [negb].
    destruct H as [H|H]; [discriminate|].
    unfold time_segment in H.
    destruct (split_days timestr) as [d seg]. cbn [snd] in H.
    unfold split_time.
    destruct (Str.count ":" seg) as [|[|[|n]]]; try lia. reflexivity. }
  split; [exact E|].
  intros py a w out Ha. unfold main, bind, lift, parse_args, timedelta_from_timestr.
  rewrite Ha. cbn [or_default]. rewrite E.
  destruct (permitted timestr); reflexivity.
Qed.

Lemma malformed_text_rejected_witness :
  from_timestr "1:2:3:4" = Raise ValueError
  /\ forall (py : library) (a : argv) (w : world) (out : list string),
      arg_initial_time a = Some "1:2:3:4" ->
      main py a w out = (Raise (SystemExit 2), out).
Proof.
  apply (malformed_text_rejected "1:2:3:4"). right. vm_compute. lia.
Defined.

(** ** C7 *)

(** The fields [from_timedelta] computes are within their modulus. *)
Lemma from_timedelta_normalized (td : timedelta) :
  timedelta_valid td -> normalized (from_timedelta td).
Proof.
  intros (_ & Hs & Hus). unfold normalized, from_timedelta, divmod. cbn.
  pose proof (Z.mod_pos_bound (td_seconds td) 60 ltac:(lia)).
  pose proof (Z.mod_pos_bound (td_seconds td / 60) 60 ltac:(lia)).
  assert (0 <= td_seconds td / 60 / 60 <= 23).
  { rewrite Z.div_div by lia. split.
    - apply Z.div_pos; lia.
    - apply Z.lt_succ_r, Z.div_lt_upper_bound; lia. }
  lia.
Qed.

(** The fields [from_timestr] returns are not negative. *)
Lemma from_timestr_non_negative (timestr : string) (t : TimeInfo) :
  from_timestr timestr = Ok t -> non_negative t.
Proof.
  intros H.
  destruct (from_timestr_inv _ _ H)
    as (P & d & seg & h & m & sf & s & us & D & T & S & Id & Ih & Im & Is & Ius).
  assert (A : Str.all (fun a => negb (Ascii.eqb a "-")) timestr = true)
    by (eapply all_impl; [exact permitted_not_minus | exact P]).
  destruct (pieces_all _ _ _ _ _ _ _ _ _ eq_refl A D T S) as (Ad & Ah & Am & As & Aus).
  unfold non_negative.
  repeat split; eapply int_nonneg; try eassumption; now apply mem_false_all.
Qed.

(** C7, as the code has it: [from_timedelta] yields hours in 0-23, minutes
    and seconds in 0-59 and microseconds in 0-999999, with [days] the days
    of the timedelta, negative exactly when the timedelta is; [from_timestr]
    yields five non-negative fields, each the integer written in its piece
    of the text, with no reduction to a modulus. *)
Theorem constructors_ranges (td : timedelta) (timestr : string) (t : TimeInfo) :
  timedelta_valid td -> from_timestr timestr = Ok t ->
  (normalized (from_timedelta td)
   /\ days (from_timedelta td) = td_days td
   /\ (0 <= days (from_timedelta td) <-> 0 <= total_microseconds td))
  /\ (non_negative t
      /\ exists d h m s us,
          field_texts timestr = Some (d, h, m, s, us)
          /\ days t = written d /\ hours t = written h
          /\ minutes t = written m /\ seconds t = written s
          /\ microseconds t = written us).
Proof.
  intros V H. split.
  - split; [now apply from_timedelta_normalized|].
    split; [reflexivity|].
    destruct V as (_ & Hs & Hus). unfold total_microseconds.
    change (days (from_timedelta td)) with (td_days td). lia.
  - split; [now apply (from_timestr_non_negative timestr)|].
    destruct (from_timestr_written _ _ H)
      as (d & h & m & s & us & F & _ & _ & _ & W).
    exists d, h, m, s, us. auto.
Qed.

Lemma constructors_ranges_witness :
  (normalized (from_timedelta (mk_timedelta 0 5410 0))
   /\ days (from_timedelta (mk_timedelta 0 5410 0)) = 0
   /\ (0 <= days (from_timedelta (mk_timedelta 0 5410 0))
       <-> 0 <= total_microseconds (mk_timedelta 0 5410 0)))
  /\ (non_negative (mk_TimeInfo 0 99 99 99 0)
      /\ exists d h m s us,
          field_texts "99:99:99" = Some (d, h, m, s, us)
          /\ days (mk_TimeInfo 0 99 99 99 0) = written d
          /\ hours (mk_TimeInfo 0 99 99 99 0) = written h
          /\ minutes (mk_TimeInfo 0 99 99 99 0) = written m
          /\ seconds (mk_TimeInfo 0 99 99 99 0) = written s
          /\ microseconds (mk_TimeInfo 0 99 99 99 0) = written us).
Proof.
  apply (constructors_ranges (mk_timedelta 0 5410 0) "99:99:99").
  - unfold timedelta_valid, MAX_DELTA_DAYS. simpl. lia.
  - reflexivity.
Defined.

(** The claim as stated fails on both constructors.  [from_timestr] keeps
    the fields as written, so ["99:99:99"] gives hours, minutes and seconds
    of 99.  And [from_timedelta] is given the timer's [elapsed], which is
    negative once the clock has been set back: with the checkpoint at one
    second and the next reading at zero, the tick leaves [elapsed] at
    minus one second, whose [TimeInfo] has [days = -1]. *)
Lemma constructors_not_both_in_range :
  (from_timestr "99:99:99" = Ok (mk_TimeInfo 0 99 99 99 0)
   /\ ~ normalized (mk_TimeInfo 0 99 99 99 0))
  /\ (tick false (mk_timedelta 0 0 20000) 0
        (mk_loop_vars timedelta_zero 1000000) []
      = (Ok (mk_loop_vars (mk_timedelta (-1) 86399 0) 0), [])
      /\ from_timedelta (mk_timedelta (-1) 86399 0)
         = mk_TimeInfo (-1) 23 59 59 0
      /\ ~ non_negative (mk_TimeInfo (-1) 23 59 59 0)).
Proof.
  split; [split; [reflexivity|]; unfold normalized; simpl; lia|].
  split; [reflexivity|]. split; [reflexivity|].
  unfold non_negative. simpl. lia.
Qed.

(** ** C9 *)

(** C9: [from_timedelta] loses nothing: the constructor applied to the five
    fields gives the timedelta back. *)
Theorem from_timedelta_lossless (td : timedelta) :
  timedelta_valid td ->
  let t := from_timedelta td in
  timedelta_new (days t) (seconds t) (microseconds t) (minutes t) (hours t) = Ok td.
Proof.
  intros (Hd & Hs & Hus). destruct td as [d s us].
  unfold MAX_DELTA_DAYS in Hd. cbn in Hd, Hs, Hus.
  unfold from_timedelta, divmod. cbn.
  unfold timedelta_new, divmod.
  assert (E : s mod 60 + s / 60 mod 60 * 60 + s / 60 / 60 * 3600 = s).
  { pose proof (Z.div_mod s 60 ltac:(lia)).
    pose proof (Z.div_mod (s / 60) 60 ltac:(lia)). lia. }
  rewrite E.
  change (24 * 3600) with 86400.
  rewrite (Z.div_small s 86400), (Z.mod_small s 86400) by lia.
  rewrite (Z.div_small us 1000000), (Z.mod_small us 1000000) by lia.
  rewrite !(Z.mod_small us 1000000), !(Z.div_small us 1000000) by lia.
  change (0 / 86400) with 0. change (0 mod 86400) with 0.
  rewrite !Z.add_0_r.
  rewrite (Z.div_small s 86400), (Z.mod_small s 86400) by lia.
  rewrite !Z.add_0_r.
  unfold MAX_DELTA_DAYS.
  destruct (Z.abs d >? 999999999) eqn:G; [lia | reflexivity].
Qed.

Lemma from_timedelta_lossless_witness :
  timedelta_new 12448 53 742775 4 16 = Ok (mk_timedelta 12448 57893 742775).
Proof.
  apply (from_timedelta_lossless (mk_timedelta 12448 57893 742775)).
  unfold timedelta_valid, MAX_DELTA_DAYS. simpl. lia.
Defined.

End Parser.

(* ================================================================== *)
(** * Facts about [timedelta] *)
(* ================================================================== *)

Module TimedeltaFacts.

Lemma gtb_true (a b : Z) : a > b -> (a >? b) = true.
Proof. intros H. rewrite Z.gtb_ltb. apply Z.ltb_lt. lia. Qed.

Lemma gtb_false (a b : Z) : a <= b -> (a >? b) = false.
Proof. intros H. rewrite Z.gtb_ltb. apply Z.ltb_ge. lia. Qed.

Lemma total_of_microseconds (n : Z) :
  total_microseconds (timedelta_of_microseconds n) = n.
Proof.
  unfold total_microseconds, timedelta_of_microseconds. cbn.
  Z.div_mod_to_equations. lia.
Qed.

Lemma of_microseconds_reduced (n : Z) : reduced (timedelta_of_microseconds n).
Proof.
  unfold reduced, timedelta_of_microseconds. cbn.
  split; apply Z.mod_pos_bound; lia.
Qed.

(** On reduced timedeltas the comparison of the tuples is the comparison
    of the lengths. *)
Lemma gt_total (a b : timedelta) :
  reduced a -> reduced b ->
  timedelta_gt a b = (total_microseconds a >? total_microseconds b).
Proof.
  destruct a as [d1 s1 u1], b as [d2 s2 u2].
  unfold reduced, timedelta_gt, total_microseconds. cbn. intros [? ?] [? ?].
  destruct (Z.compare_spec d1 d2); [destruct (Z.compare_spec s1 s2)| |];
    subst; lia.
Qed.

(** The constructor keeps the length and reduces the fields. *)
Lemma new_total (d s us : Z) :
  timedelta_new d s us 0 0
  = if Z.abs (((d * 86400 + s) * 1000000 + us) / 86400000000) >? MAX_DELTA_DAYS
    then Raise OverflowError
    else Ok (timedelta_of_microseconds ((d * 86400 + s) * 1000000 + us)).
Proof.
  unfold timedelta_new, timedelta_of_microseconds, divmod.
  change (24 * 3600) with 86400.
  replace (s + 0 * 60 + 0 * 3600) with s by lia.
  rewrite (Z.mod_mod us 1000000) by lia.
  rewrite (Z.div_small (us mod 1000000) 1000000) by (apply Z.mod_pos_bound; lia).
  rewrite Z.add_0_r.
  set (N := (d * 86400 + s) * 1000000 + us).
  assert (Ed : d + s / 86400 + us / 1000000 / 86400
               + (s mod 86400 + us / 1000000 mod 86400) / 86400
               = N / 86400000000)
    by (unfold N; Z.div_mod_to_equations; lia).
  assert (Es : (s mod 86400 + us / 1000000 mod 86400) mod 86400
               = N / 1000000 mod 86400)
    by (unfold N; Z.div_mod_to_equations; lia).
  assert (Eu : us mod 1000000 = N mod 1000000)
    by (unfold N; Z.div_mod_to_equations; lia).
  rewrite Ed, Es, Eu. reflexivity.
Qed.

(** Addition adds the lengths, when the sum is within range. *)
Lemma add_total (a b : timedelta) :
  timedelta_add a b
  = if Z.abs ((total_microseconds a + total_microseconds b) / 86400000000)
       >? MAX_DELTA_DAYS
    then Raise OverflowError
    else Ok (timedelta_of_microseconds (total_microseconds a + total_microseconds b)).
Proof.
  unfold timedelta_add. rewrite new_total. unfold total_microseconds.
  replace (((td_days a + td_days b) * 86400 + (td_seconds a + td_seconds b)) * 1000000
           + (td_microseconds a + td_microseconds b))
    with ((td_days a * 86400 + td_seconds a) * 1000000 + td_microseconds a
          + ((td_days b * 86400 + td_seconds b) * 1000000 + td_microseconds b))
    by ring.
  reflexivity.
Qed.

(** A number of microseconds within the range makes a timedelta. *)
Lemma of_microseconds_within (n : Z) :
  Z.abs (n / 86400000000) <= MAX_DELTA_DAYS ->
  timedelta_valid (timedelta_of_microseconds n).
Proof.
  intros H. unfold timedelta_valid, timedelta_of_microseconds.
  cbn [td_days td_seconds td_microseconds].
  split; [lia|]. split; apply Z.mod_pos_bound; lia.
Qed.

Lemma of_seconds_reduced (x : float) (t : timedelta) :
  timedelta_of_seconds x = Ok t -> reduced t.
Proof.
  unfold timedelta_of_seconds, divmod. intros H.
  destruct (float_int x) as [whole|]; [|discriminate]. cbn [rbind] in H.
  destruct (float_round _) as [us|]; [|discriminate]. cbn [rbind] in H.
  destruct (Z.abs _ >? MAX_DELTA_DAYS); [discriminate|].
  inversion H; subst. unfold reduced. cbn.
  split; apply Z.mod_pos_bound; lia.
Qed.

End TimedeltaFacts.

(* ================================================================== *)
(** * The length of a decimal numeral *)
(* ================================================================== *)

Module DecimalFacts.

Lemma decimal_digits_length (fuel : nat) (n : Z) (tail : string) :
  (String.length (decimal_digits fuel n tail) <= S fuel + String.length tail)%nat.
Proof.
  revert n tail. induction fuel as [|fuel IH]; intros n tail;
    cbn [decimal_digits]; [simpl; lia|].
  destruct (n <? 10); [simpl; lia|].
  etransitivity; [apply IH|]. simpl. lia.
Qed.

(** A number below [2 ^ k] has at most [k + 1] digits. *)
Lemma decimal_length (n k : Z) :
  0 <= n < 2 ^ k -> Z.of_nat (String.length (decimal n)) <= k + 1.
Proof.
  intros Hn. unfold decimal.
  pose proof (decimal_digits_length (Z.to_nat (Z.log2 n)) n EmptyString) as L.
  cbn [String.length] in L.
  assert (Hk : 0 <= k).
  { destruct (Z.le_gt_cases 0 k) as [|Neg]; [assumption|].
    rewrite (Z.pow_neg_r 2 k Neg) in Hn. lia. }
  assert (Z.log2 n <= k).
  { destruct (Z.eq_dec n 0) as [->|Hne]; [exact Hk|].
    apply Z.lt_le_incl, Z.log2_lt_pow2; lia. }
  pose proof (Z.log2_nonneg n). lia.
Qed.

(** The numbers of a timedelta are far from the limit on digits. *)
Lemma decimal_within_limit (n : Z) :
  Z.abs n < 2 ^ 64 ->
  (MAX_STR_DIGITS <? Z.of_nat (String.length (decimal (Z.abs n)))) = false.
Proof.
  intros H. apply Z.ltb_ge.
  pose proof (decimal_length (Z.abs n) 64 ltac:(lia)).
  unfold MAX_STR_DIGITS. lia.
Qed.

End DecimalFacts.

(* ================================================================== *)
(** * The run loop *)
(* ================================================================== *)

Module Run.

Import TimedeltaFacts.

Lemma interval_reduced (a b : datetime) : reduced (datetime_sub a b).
Proof. apply of_microseconds_reduced. Qed.

Lemma interval_total (a b : datetime) :
  total_microseconds (datetime_sub a b) = a - b.
Proof. apply total_of_microseconds. Qed.

(** ** C1 *)

(** C1, as the code has it.  The threshold is [timedelta(seconds =
    update_interval + suspend_margin)], the sum rounded to a whole
    microsecond; the interval is the new reading minus the checkpoint.  A
    tick whose interval is longer than the threshold leaves [elapsed] as
    it is (and, unless the run is silent, prints a blank line); any other
    tick adds the whole interval to [elapsed], or raises [OverflowError]
    when the sum leaves timedelta's range of 999999999 days.  The
    checkpoint moves to the new reading in every tick that returns. *)
Theorem tick_classification
    (update_interval suspend_margin : float) (suspend_threshold : timedelta)
    (final_only : bool) (end_ : datetime) (v : loop_vars) (out : list string) :
  timedelta_of_seconds (update_interval + suspend_margin) = Ok suspend_threshold ->
  let interval := end_ - start v in
  let sum := total_microseconds (elapsed v) + interval in
  (interval > total_microseconds suspend_threshold ->
   tick final_only suspend_threshold end_ v out
   = (Ok (mk_loop_vars (elapsed v) end_),
      (out ++ if final_only then [] else [EmptyString])%list))
  /\ (interval <= total_microseconds suspend_threshold ->
      Z.abs (sum / 86400000000) <= MAX_DELTA_DAYS ->
      exists elapsed',
        tick final_only suspend_threshold end_ v out
        = (Ok (mk_loop_vars elapsed' end_), out)
        /\ reduced elapsed'
        /\ total_microseconds elapsed' = sum)
  /\ (interval <= total_microseconds suspend_threshold ->
      Z.abs (sum / 86400000000) > MAX_DELTA_DAYS ->
      tick final_only suspend_threshold end_ v out = (Raise OverflowError, out)).
Proof.
  intros HT interval sum. apply of_seconds_reduced in HT.
  unfold tick.
  rewrite (gt_total _ suspend_threshold (interval_reduced _ _) HT), interval_total.
  fold interval. split; [|split].
  - intros Hgt. rewrite (gtb_true _ _ Hgt).
    destruct final_only; cbn; [now rewrite app_nil_r | reflexivity].
  - intros Hle Hrange.
    rewrite (gtb_false _ _ Hle), add_total, interval_total.
    fold interval. fold sum. rewrite (gtb_false _ _ Hrange).
    eexists. split; [reflexivity|].
    split; [apply of_microseconds_reduced | apply total_of_microseconds].
  - intros Hle Hrange.
    rewrite (gtb_false _ _ Hle), add_total, interval_total.
    fold interval. fold sum. now rewrite (gtb_true _ _ Hrange).
Qed.

(** With [update_interval = 1.0] and [suspend_margin = 0.0], a tick after
    5.0 s is a suspend gap and adds nothing, and a tick after 0.9 s adds
    0.9 s. *)
Lemma tick_classification_witness :
  tick false (mk_timedelta 0 1 0) 5000000 (mk_loop_vars timedelta_zero 0) []
  = (Ok (mk_loop_vars timedelta_zero 5000000), [EmptyString])
  /\ exists elapsed',
      tick false (mk_timedelta 0 1 0) 900000 (mk_loop_vars timedelta_zero 0) []
      = (Ok (mk_loop_vars elapsed' 900000), [])
      /\ reduced elapsed'
      /\ total_microseconds elapsed' = 900000.
Proof.
  split.
  - apply (tick_classification 1.0 0.0 (mk_timedelta 0 1 0) false 5000000
             (mk_loop_vars timedelta_zero 0) [] eq_refl).
    vm_compute. reflexivity.
  - apply (tick_classification 1.0 0.0 (mk_timedelta 0 1 0) false 900000
             (mk_loop_vars timedelta_zero 0) [] eq_refl).
    + vm_compute. discriminate.
    + vm_compute. discriminate.
Defined.

(** The claim as stated fails in two ways.  The threshold is not the sum
    of the two numbers but the timedelta made of it: with
    [update_interval = 0.5] and [suspend_margin = 0.4999996] the sum is
    below one second and the threshold is one second, so a tick of exactly
    one second, longer than the sum, is added to [elapsed].  And a tick
    within the threshold is not always added: one microsecond on top of
    the longest timedelta raises [OverflowError]. *)
Lemma threshold_is_rounded_and_sum_is_bounded :
  ((0.5 + 0x1.ffffe5280d654p-2 <? 1)%float = true
   /\ timedelta_of_seconds (0.5 + 0x1.ffffe5280d654p-2) = Ok (mk_timedelta 0 1 0)
   /\ tick false (mk_timedelta 0 1 0) 1000000 (mk_loop_vars timedelta_zero 0) []
      = (Ok (mk_loop_vars (mk_timedelta 0 1 0) 1000000), []))
  /\ (timedelta_of_seconds (1.0 + 0.0) = Ok (mk_timedelta 0 1 0)
      /\ tick false (mk_timedelta 0 1 0) 1
           (mk_loop_vars (mk_timedelta 999999999 86399 999999) 0) []
         = (Raise OverflowError, [])).
Proof. repeat split; vm_compute; reflexivity. Qed.

(** Beyond the range the addition raises and the run ends with it. *)
Lemma tick_overflow (final_only : bool) (threshold : timedelta) (out : list string) :
  timedelta_gt (mk_timedelta 0 0 1) threshold = false ->
  tick final_only threshold 1
       (mk_loop_vars (mk_timedelta 999999999 86399 999999) 0) out
  = (Raise OverflowError, out).
Proof.
  intros H. unfold tick. cbn [start elapsed].
  change (datetime_sub 1 0) with (mk_timedelta 0 0 1).
  rewrite H. reflexivity.
Qed.

(** ** C8 *)

(** C8: from the initial time ["1:30:0.0"], one normal tick of exactly ten
    seconds gives an elapsed time that the default template renders as
    ["01h : 30m : 10s : 0ms"]. *)
Theorem end_to_end_default_template
    (py : library) (final_only : bool) (threshold : timedelta) (end_ : datetime)
    (v : loop_vars) (out : list string) :
  timedelta_from_timestr "1:30:0.0" = Ok (elapsed v) ->
  datetime_sub end_ (start v) = mk_timedelta 0 10 0 ->
  timedelta_gt (mk_timedelta 0 10 0) threshold = false ->
  exists v',
    tick final_only threshold end_ v out = (Ok v', out)
    /\ str_format py DEFAULT_OUTPUT_FORMAT (from_timedelta (elapsed v'))
       = Ok "01h : 30m : 10s : 0ms".
Proof.
  intros Hinit Hint Hgt.
  assert (P : timedelta_from_timestr "1:30:0.0" = Ok (mk_timedelta 0 5400 0))
    by reflexivity.
  assert (E : elapsed v = mk_timedelta 0 5400 0) by congruence.
  unfold tick. rewrite Hint, Hgt, E.
  eexists. split; reflexivity.
Qed.

Lemma end_to_end_default_template_witness :
  exists v',
    tick false (mk_timedelta 0 20 0) 10000000
         (mk_loop_vars (mk_timedelta 0 5400 0) 0) []
    = (Ok v', [])
    /\ str_format example_library DEFAULT_OUTPUT_FORMAT (from_timedelta (elapsed v'))
       = Ok "01h : 30m : 10s : 0ms".
Proof.
  apply (end_to_end_default_template example_library false (mk_timedelta 0 20 0)
           10000000 (mk_loop_vars (mk_timedelta 0 5400 0) 0) []); reflexivity.
Defined.

(** The same through [main]: [--initial-time 1:30:0.0 --update-interval 10],
    one tick ten seconds after the start, then the interrupt. *)
Example main_one_tick (py : library) :
  main py (mk_argv (Some "1:30:0.0") None (Some 10%float) None false)
       (mk_world 63900000000000000 [63900000010000000] in_sleep) []
  = (Ok tt,
     [EmptyString;
      START_OF_PREV_LINE ++ "01h : 30m : 10s : 0ms";
      START_OF_PREV_LINE ++ "01h : 30m : 10s : 0ms";
      "KeyboardInterrupt: exiting"]).
Proof. vm_compute. reflexivity. Qed.

(** ** C2 *)

Lemma in_range_cons (T e : Z) (c t : datetime) (rest : list datetime) :
  in_range T e c (t :: rest) = true <->
  in_range T e c [t] = true
  /\ in_range T (e + counted_microseconds T c [t]) t rest = true.
Proof.
  cbn [in_range counted_microseconds].
  destruct (t - c >? T).
  - rewrite !Z.add_0_r. tauto.
  - rewrite Z.add_0_r, andb_true_r. apply andb_true_iff.
Qed.

Lemma counted_cons (T : Z) (c t : datetime) (rest : list datetime) :
  counted_microseconds T c (t :: rest)
  = counted_microseconds T c [t] + counted_microseconds T t rest.
Proof. cbn [counted_microseconds]. lia. Qed.

Lemma last_cons (l : list datetime) (t c : datetime) :
  last (t :: l) c = last l t.
Proof.
  revert t c. induction l as [|a l IH]; intros t c; [reflexivity|].
  change (last (t :: a :: l) c) with (last (a :: l) c).
  now rewrite (IH a c), (IH a t).
Qed.

Lemma in_range_app (T : Z) (l : list datetime) (e : Z) (c x : datetime) :
  in_range T e c (l ++ [x]) = true ->
  in_range T e c l = true
  /\ in_range T (e + counted_microseconds T c l) (last l c) [x] = true.
Proof.
  revert e c. induction l as [|t l IH]; intros e c H.
  - cbn [app last counted_microseconds]. rewrite Z.add_0_r. auto.
  - change ((t :: l) ++ [x])%list with (t :: (l ++ [x]))%list in H.
    apply in_range_cons in H as [H1 H2].
    apply IH in H2 as [H2 H3].
    pose proof (last_cons l t c) as L.
    rewrite L, counted_cons, Z.add_assoc. split; [|exact H3].
    apply in_range_cons. auto.
Qed.

Lemma counted_app (T : Z) (l : list datetime) (c x : datetime) :
  counted_microseconds T c (l ++ [x])
  = counted_microseconds T c l + counted_microseconds T (last l c) [x].
Proof.
  revert c. induction l as [|t l IH]; intros c.
  - cbn. lia.
  - change ((t :: l) ++ [x])%list with (t :: (l ++ [x]))%list.
    pose proof (last_cons l t c) as L.
    rewrite L, counted_cons, IH, (counted_cons T c t l). lia.
Qed.

(** Counting the displays among the lines printed. *)
Lemma count_displays_app (a b : list string) :
  count_displays (a ++ b) = (count_displays a + count_displays b)%nat.
Proof. unfold count_displays. now rewrite List.filter_app, List.length_app. Qed.

Lemma is_display_display (text : string) : is_display (display text) = true.
Proof.
  unfold is_display, display. now rewrite StrFacts.strip_prefix_app.
Qed.

Lemma count_displays_display (text : string) :
  count_displays [display text] = 1%nat.
Proof. unfold count_displays. cbn [List.filter]. now rewrite is_display_display. Qed.

(** The handler's lines hold one display. *)
Lemma count_displays_final (final_only : bool) (text : string) :
  count_displays (final_display final_only text) = 1%nat.
Proof.
  unfold final_display, count_displays.
  destruct final_only; cbn [List.filter];
    rewrite is_display_display; reflexivity.
Qed.

(** What a tick leaves in [elapsed], as a length. *)
Lemma next_elapsed_total (T : Z) (e : timedelta) (c t : datetime) :
  total_microseconds (next_elapsed T e c t)
  = total_microseconds e + counted_microseconds T c [t].
Proof.
  unfold next_elapsed. cbn [counted_microseconds].
  destruct (t - c >? T); [lia|]. rewrite total_of_microseconds. lia.
Qed.

(** A silent loop prints nothing. *)
Lemma loop_lines_silent (text : timedelta -> string) (T : Z) (e : timedelta)
    (c : datetime) (ticks : list datetime) :
  loop_lines text true T e c ticks = [].
Proof.
  revert e c. induction ticks as [|t ticks IH]; intros e c; [reflexivity|].
  cbn [loop_lines gap_lines app]. apply IH.
Qed.

Lemma shown_by_loop_silent (text : timedelta -> string) (T : Z)
    (initial : timedelta) (w : world) :
  shown_by_loop text true T initial w = [].
Proof.
  unfold shown_by_loop. rewrite loop_lines_silent.
  destruct (interrupt w); reflexivity.
Qed.

Lemma count_displays_gap (final_only : bool) (T : Z) (c t : datetime) :
  count_displays (gap_lines final_only T c t) = 0%nat.
Proof.
  unfold gap_lines. destruct final_only; [reflexivity|].
  destruct (t - c >? T); reflexivity.
Qed.

(** A loop that is not silent displays the elapsed time once for each
    iteration that runs to its end. *)
Lemma count_displays_loop (text : timedelta -> string) (final_only : bool)
    (T : Z) (e : timedelta) (c : datetime) (ticks : list datetime) :
  count_displays (loop_lines text final_only T e c ticks)
  = (if final_only then 0 else List.length ticks)%nat.
Proof.
  revert e c. induction ticks as [|t ticks IH]; intros e c.
  - now destruct final_only.
  - cbn [loop_lines]. rewrite !count_displays_app, count_displays_gap, IH.
    destruct final_only; [reflexivity|].
    rewrite count_displays_display. reflexivity.
Qed.

(** The default template renders every timedelta. *)
Lemma default_template_renders (py : library) (e : timedelta) :
  timedelta_valid e ->
  str_format py DEFAULT_OUTPUT_FORMAT (from_timedelta e) = Ok (default_text e).
Proof.
  intros V. pose proof (Parser.from_timedelta_normalized e V) as (Hh & Hm & Hs & Hus).
  unfold default_text. generalize dependent (from_timedelta e). intros t Hh Hm Hs Hus.
  unfold str_format.
  assert (S : scan InText DEFAULT_OUTPUT_FORMAT = (default_pieces, Complete))
    by (vm_compute; reflexivity).
  rewrite S. unfold default_pieces.
  cbn [render render_piece get_field].
  rewrite !DecimalFacts.decimal_within_limit by lia.
  cbn [rbind append]. reflexivity.
Qed.

(** The render hypothesis of a worked example with the default template:
    each elapsed time displayed is a timedelta. *)
Ltac renders_by_default :=
  let e := fresh "e" in
  let He := fresh "He" in
  intros e He; apply default_template_renders; vm_compute in He;
  repeat (destruct He as [<-|He];
          [unfold timedelta_valid, MAX_DELTA_DAYS; simpl; lia|]);
  contradiction.

(** The last of the elapsed times is the one a further reading starts
    from. *)
Lemma last_elapsed_cons (l : list timedelta) (t c : timedelta) :
  last (t :: l) c = last l t.
Proof.
  revert t c. induction l as [|a l IH]; intros t c; [reflexivity|].
  change (last (t :: a :: l) c) with (last (a :: l) c).
  now rewrite (IH a c), (IH a t).
Qed.

Lemma elapsed_after_app (T : Z) (l : list datetime) (e : timedelta)
    (c x : datetime) :
  elapsed_after T e c (l ++ [x])
  = (elapsed_after T e c l
     ++ [next_elapsed T (last (elapsed_after T e c l) e) (last l c) x])%list.
Proof.
  revert e c. induction l as [|t l IH]; intros e c; [reflexivity|].
  change ((t :: l) ++ [x])%list with (t :: (l ++ [x]))%list.
  cbn [elapsed_after app]. rewrite IH, last_elapsed_cons, last_cons. reflexivity.
Qed.

(** What the readings leave in [elapsed], as a length. *)
Lemma elapsed_after_total (T : Z) (ticks : list datetime) (e : timedelta)
    (c : datetime) :
  total_microseconds (last (elapsed_after T e c ticks) e)
  = total_microseconds e + counted_microseconds T c ticks.
Proof.
  revert e c. induction ticks as [|t ticks IH]; intros e c.
  - cbn. lia.
  - cbn [elapsed_after]. rewrite last_elapsed_cons, IH, next_elapsed_total.
    rewrite (counted_cons T c t ticks). lia.
Qed.

(** When the loop displays, the line it has printed last is the display of
    the elapsed time it holds. *)
Lemma loop_lines_last (text : timedelta -> string) (T : Z)
    (ticks : list datetime) (e : timedelta) (c : datetime) :
  ticks <> [] ->
  exists before,
    loop_lines text false T e c ticks
    = (before ++ [display (text (last (elapsed_after T e c ticks) e))])%list.
Proof.
  revert e c. induction ticks as [|t ticks IH]; intros e c Hne; [contradiction|].
  cbn [loop_lines elapsed_after]. rewrite last_elapsed_cons.
  destruct ticks as [|t' ticks'].
  - exists (gap_lines false T c t). cbn [loop_lines elapsed_after last].
    now rewrite app_nil_r.
  - destruct (IH (next_elapsed T e c t) t ltac:(discriminate)) as (b & E).
    rewrite E.
    exists (gap_lines false T c t
            ++ [display (text (next_elapsed T e c t))] ++ b)%list.
    now rewrite <- !app_assoc.
Qed.

Section Loop.

Variable py : library.
Variable output_format : string.
Variable final_only : bool.
Variable update_interval : float.
Variable threshold : timedelta.
Variable text : timedelta -> string.

Hypothesis sleep_ok : sleep_error py update_interval = None.
Hypothesis threshold_reduced : reduced threshold.

(** Where the template renders, [msg] prints one line and returns. *)
Lemma msg_shows (skip : bool) (e : timedelta) (out : list string) :
  (skip = false -> str_format py output_format (from_timedelta e) = Ok (text e)) ->
  msg py output_format skip e out
  = (Ok tt, (out ++ if skip then [] else [display (text e)])%list).
Proof.
  intros R. unfold msg. destruct skip.
  - unfold ret. now rewrite app_nil_r.
  - unfold bind, lift. rewrite (R eq_refl). reflexivity.
Qed.

Lemma sleep_returns (out : list string) :
  sleep py update_interval out = (Ok tt, out).
Proof. unfold sleep. now rewrite sleep_ok. Qed.

(** One accounting step. *)
Lemma tick_exact (end_ : datetime) (v : loop_vars) (out : list string) :
  in_range (total_microseconds threshold) (total_microseconds (elapsed v))
           (start v) [end_] = true ->
  tick final_only threshold end_ v out
  = (Ok (mk_loop_vars
           (next_elapsed (total_microseconds threshold) (elapsed v) (start v) end_)
           end_),
     (out ++ gap_lines final_only (total_microseconds threshold) (start v) end_)%list).
Proof.
  cbn [in_range]. unfold tick, next_elapsed, gap_lines.
  rewrite (gt_total _ _ (interval_reduced _ _) threshold_reduced), interval_total.
  destruct (end_ - start v >? total_microseconds threshold).
  - intros _. destruct final_only; cbn; [now rewrite app_nil_r | reflexivity].
  - rewrite andb_true_r. intros H. apply Z.leb_le in H.
    rewrite add_total, interval_total, (gtb_false _ _ H).
    destruct final_only; cbn; now rewrite app_nil_r.
Qed.

(** The iterations that run to their end: what they print and what they
    leave in the variables of the loop. *)
Lemma run_loop_exact (ticks : list datetime) (v : loop_vars) (out : list string) :
  (final_only = false ->
   forall e, In e (elapsed_after (total_microseconds threshold)
                                 (elapsed v) (start v) ticks) ->
             str_format py output_format (from_timedelta e) = Ok (text e)) ->
  in_range (total_microseconds threshold) (total_microseconds (elapsed v))
           (start v) ticks = true ->
  run_loop py output_format final_only update_interval threshold ticks v out
  = (Ok (mk_loop_vars
           (last (elapsed_after (total_microseconds threshold)
                                (elapsed v) (start v) ticks) (elapsed v))
           (last ticks (start v))),
     (out ++ loop_lines text final_only (total_microseconds threshold)
                        (elapsed v) (start v) ticks)%list).
Proof.
  revert v out. induction ticks as [|t ticks IH]; intros v out R H.
  - cbn. rewrite app_nil_r. now destruct v.
  - apply in_range_cons in H as [H1 H2].
    pose proof (tick_exact t v out H1) as E1.
    pose proof (next_elapsed_total (total_microseconds threshold) (elapsed v)
                  (start v) t) as A1.
    cbn [elapsed_after] in R.
    set (e1 := next_elapsed (total_microseconds threshold) (elapsed v) (start v) t) in *.
    rewrite <- A1 in H2.
    assert (R1 : final_only = false ->
                 str_format py output_format (from_timedelta e1) = Ok (text e1))
      by (intros F; apply (R F); now left).
    assert (R2 : final_only = false ->
                 forall e, In e (elapsed_after (total_microseconds threshold) e1 t ticks) ->
                           str_format py output_format (from_timedelta e) = Ok (text e))
      by (intros F e He; apply (R F); now right).
    cbn [run_loop loop_lines elapsed_after]. unfold iteration, bind at 1 2 3 4.
    rewrite sleep_returns, E1. cbn [elapsed].
    rewrite (msg_shows _ _ _ R1). unfold ret at 1.
    rewrite (IH (mk_loop_vars e1 t) _ R2 H2). cbn [elapsed start].
    fold e1. rewrite last_elapsed_cons, last_cons, !app_assoc. reflexivity.
Qed.

(** Where the template renders, the handler shows the elapsed time once
    and returns it. *)
Lemma on_keyboard_interrupt_shows (e : timedelta) (out : list string) :
  str_format py output_format (from_timedelta e) = Ok (text e) ->
  on_keyboard_interrupt py output_format final_only e out
  = (Ok e, (out ++ final_display final_only (text e))%list).
Proof.
  intros R. unfold on_keyboard_interrupt, final_display, bind, when.
  destruct final_only; cbn [negb]; unfold print, ret;
    rewrite (msg_shows false e _ (fun _ => R)); cbn; now rewrite <- !app_assoc.
Qed.

(** Where [str.format] raises, the handler ends in that exception. *)
Lemma on_keyboard_interrupt_raises (e : timedelta) (x : exn) (out : list string) :
  str_format py output_format (from_timedelta e) = Raise x ->
  on_keyboard_interrupt py output_format final_only e out
  = (Raise x, (out ++ if final_only then [EmptyString] else [])%list).
Proof.
  intros R. unfold on_keyboard_interrupt, bind, when, msg, lift.
  destruct final_only; cbn [negb]; unfold print, ret; rewrite R;
    [reflexivity | now rewrite app_nil_r].
Qed.

End Loop.

(** A run whose loop is still running when the interrupt arrives comes to
    the handler with the elapsed time of the last accounting, having
    printed the lines of the loop. *)
Lemma timer_reaches_handler (py : library)
    (initial_time : option timedelta) (update_interval suspend_margin : option float)
    (output_format : option string) (final_only : bool) (w : world)
    (threshold : timedelta) (text : timedelta -> string) :
  let u := or_default update_interval DEFAULT_UPDATE_INTERVAL in
  let m := or_default suspend_margin u in
  let initial := or_default initial_time timedelta_zero in
  let template := or_default output_format DEFAULT_OUTPUT_FORMAT in
  (final_only = false ->
   forall e, In e (elapsed_after (total_microseconds threshold) initial
                                 (clock_start w) (clock_ticks w)) ->
             str_format py template (from_timedelta e) = Ok (text e)) ->
  (0 <=? m)%float = true ->
  sleep_error py u = None ->
  timedelta_of_seconds (u + m) = Ok threshold ->
  in_range (total_microseconds threshold) (total_microseconds initial)
           (clock_start w) (accounted w) = true ->
  timer py initial_time update_interval suspend_margin output_format final_only w []
  = on_keyboard_interrupt py template final_only
      (final_elapsed (total_microseconds threshold) initial w)
      (shown_by_loop text final_only (total_microseconds threshold) initial w).
Proof.
  intros u m initial template Hfmt Hm Hu HT Hrange.
  pose proof (of_seconds_reduced _ _ HT) as Hred.
  unfold timer. fold u. fold m. fold initial. fold template.
  unfold bind at 1. rewrite Hm. cbn [negb when]. unfold ret at 1.
  unfold bind at 1, lift. rewrite HT.
  unfold bind at 1.
  set (out0 := if final_only then [] else [EmptyString]).
  assert (E0 : when (negb final_only) (print EmptyString) [] = (Ok tt, out0))
    by (unfold out0; destruct final_only; reflexivity).
  rewrite E0.
  set (v0 := mk_loop_vars initial (clock_start w)).
  unfold final_elapsed, shown_by_loop, accounted in *. fold out0.
  destruct (interrupt w) as [|end_|end_] eqn:I.
  - (* the interrupt arrives in [sleep] *)
    unfold bind at 1.
    rewrite (run_loop_exact py _ final_only _ _ text Hu Hred (clock_ticks w) v0 out0
               Hfmt Hrange).
    unfold bind at 1. unfold interrupted_iteration, bind at 1.
    rewrite (sleep_returns _ _ Hu). unfold ret at 1.
    cbn [elapsed start v0]. now rewrite app_nil_r.
  - (* the clock was read, the interval not yet accounted for *)
    unfold bind at 1.
    rewrite (run_loop_exact py _ final_only _ _ text Hu Hred (clock_ticks w) v0 out0
               Hfmt Hrange).
    unfold bind at 1. unfold interrupted_iteration, bind at 1.
    rewrite (sleep_returns _ _ Hu). unfold ret at 1.
    cbn [elapsed start v0]. now rewrite app_nil_r.
  - (* the interval was accounted for, the display not yet made *)
    apply in_range_app in Hrange as [Hrange Hlast].
    unfold bind at 1.
    rewrite (run_loop_exact py _ final_only _ _ text Hu Hred (clock_ticks w) v0 out0
               Hfmt Hrange).
    unfold bind at 1. unfold interrupted_iteration, bind at 1.
    rewrite (sleep_returns _ _ Hu).
    rewrite <- (elapsed_after_total (total_microseconds threshold) (clock_ticks w)
                  initial (clock_start w)) in Hlast.
    rewrite (tick_exact final_only _ Hred end_
               (mk_loop_vars
                  (last (elapsed_after (total_microseconds threshold) initial
                                       (clock_start w) (clock_ticks w)) initial)
                  (last (clock_ticks w) (clock_start w)))
               _ Hlast).
    cbn [elapsed start v0].
    rewrite elapsed_after_app, last_last, !app_assoc. reflexivity.
Qed.

(** C2, as the code has it: when [str.format] renders the output template
    at each elapsed time the run displays, a run whose loop is still
    running when the interrupt arrives (the margin passes the assertion,
    [sleep] takes the interval, the threshold and every sum are
    timedeltas) returns normally.  What was printed is what the loop had
    shown, which holds one display for each iteration that ran to its end
    and nothing at all in final-only mode, followed by the handler's
    lines, which hold the one final display; the value returned is the
    [elapsed] of the last accounting: the initial time plus every interval
    accounted for that was not above the threshold, each once. *)
Theorem interrupt_returns_elapsed (py : library)
    (initial_time : option timedelta) (update_interval suspend_margin : option float)
    (output_format : option string) (final_only : bool) (w : world)
    (threshold : timedelta) (text : timedelta -> string) :
  let u := or_default update_interval DEFAULT_UPDATE_INTERVAL in
  let m := or_default suspend_margin u in
  let initial := or_default initial_time timedelta_zero in
  let T := total_microseconds threshold in
  let shown := shown_by_loop text final_only T initial w in
  let returned := final_elapsed T initial w in
  (forall e : timedelta, In e (displayed final_only T initial w) ->
     str_format py (or_default output_format DEFAULT_OUTPUT_FORMAT)
                (from_timedelta e) = Ok (text e)) ->
  (0 <=? m)%float = true ->
  sleep_error py u = None ->
  timedelta_of_seconds (u + m) = Ok threshold ->
  in_range T (total_microseconds initial) (clock_start w) (accounted w) = true ->
  timer py initial_time update_interval suspend_margin output_format final_only w []
  = (Ok returned, (shown ++ final_display final_only (text returned))%list)
  /\ total_microseconds returned
     = total_microseconds initial
       + counted_microseconds T (clock_start w) (accounted w)
  /\ count_displays shown
     = (if final_only then 0 else List.length (clock_ticks w))%nat
  /\ count_displays (final_display final_only (text returned)) = 1%nat
  /\ (final_only = true -> shown = []).
Proof.
  intros u m initial T shown returned Hfmt Hm Hu HT Hrange.
  split; [|split; [|split; [|split]]].
  - unfold shown, returned, T.
    rewrite (timer_reaches_handler py initial_time update_interval suspend_margin
               output_format final_only w threshold text); try assumption.
    + apply on_keyboard_interrupt_shows. apply Hfmt.
      unfold displayed. apply in_or_app. right. now left.
    + intros F e He. apply Hfmt. unfold displayed. rewrite F.
      apply in_or_app. now left.
  - apply elapsed_after_total.
  - unfold shown, shown_by_loop.
    rewrite !count_displays_app, count_displays_loop.
    assert (P : count_displays
                  match interrupt w with
                  | before_display end_ =>
                      gap_lines final_only T (last (clock_ticks w) (clock_start w)) end_
                  | _ => []
                  end = 0%nat)
      by (destruct (interrupt w); [reflexivity | reflexivity | apply count_displays_gap]).
    rewrite P. destruct final_only; cbn; lia.
  - apply count_displays_final.
  - intros ->. apply shown_by_loop_silent.
Qed.

(** A run with the default template and interval (threshold 0.02 s):
    readings after 10 ms, 40 ms (a gap) and 50 ms, and a fourth at 60 ms
    that is accounted for just before the interrupt. *)
Lemma interrupt_returns_elapsed_witness :
  let shown :=
    [EmptyString;
     display "00h : 00m : 00s : 10000ms";
     EmptyString;
     display "00h : 00m : 00s : 10000ms";
     display "00h : 00m : 00s : 20000ms"] in
  let returned := mk_timedelta 0 0 30000 in
  timer example_library None None None None false
        (mk_world 0 [10000; 40000; 50000] (before_display 60000)) []
  = (Ok returned,
     (shown ++ final_display false "00h : 00m : 00s : 30000ms")%list)
  /\ total_microseconds returned
     = total_microseconds timedelta_zero
       + counted_microseconds 20000 0 [10000; 40000; 50000; 60000]
  /\ count_displays shown = 3%nat
  /\ count_displays (final_display false "00h : 00m : 00s : 30000ms") = 1%nat
  /\ (false = true -> shown = []).
Proof.
  apply (interrupt_returns_elapsed example_library None None None None false
           (mk_world 0 [10000; 40000; 50000] (before_display 60000))
           (mk_timedelta 0 0 20000) default_text);
    try reflexivity.
  renders_by_default.
Defined.

(** The claim as stated fails in two ways, whatever the library does
    beyond the model.  With a template that [str.format] refuses (here an
    unknown key), the run is silent for two ticks, the interrupt arrives,
    the handler's display raises, and the run ends in [KeyError] instead
    of returning.  And an interval is dropped at the interrupt: when the
    interrupt arrives after the clock was read 10 ms past the checkpoint
    (lines 162-164) and before the accounting (lines 168-172), the run
    returns an [elapsed] of zero; had it arrived after the accounting,
    the 10 ms would be in it. *)
Lemma interrupt_raises_or_drops_interval :
  (forall py : library,
     timer py None None None (Some "{hour}") true
           (mk_world 0 [10000; 20000] in_sleep) []
     = (Raise KeyError, [EmptyString]))
  /\ (forall py : library,
        timer py None None None None true
              (mk_world 0 [] (before_accounting 10000)) []
        = (Ok timedelta_zero,
           [EmptyString; display "00h : 00m : 00s : 0ms"]))
  /\ (forall py : library,
        timer py None None None None true
              (mk_world 0 [] (before_display 10000)) []
        = (Ok (mk_timedelta 0 0 10000),
           [EmptyString; display "00h : 00m : 00s : 10000ms"])).
Proof. repeat split; intros py; vm_compute; reflexivity. Qed.

End Run.

(* ================================================================== *)
(** * Parsing what [str(timedelta)] prints *)
(* ================================================================== *)

Module RoundTrip.

Import StrFacts IntFacts Parser.

Lemma digit_char_spec (d : Z) :
  0 <= d <= 9 -> is_digit (digit_char d) = true /\ digit_value (digit_char d) = d.
Proof.
  intros H.
  assert (C : d = 0 \/ d = 1 \/ d = 2 \/ d = 3 \/ d = 4 \/ d = 5 \/ d = 6
              \/ d = 7 \/ d = 8 \/ d = 9) by lia.
  repeat (destruct C as [-> | C]; [split; reflexivity|]). subst. split; reflexivity.
Qed.

Lemma length_app (a b : string) :
  String.length (a ++ b) = (String.length a + String.length b)%nat.
Proof. induction a as [|c a IH]; simpl; [reflexivity | now rewrite IH]. Qed.

Lemma numeral_value_app (a b : string) :
  numeral_value (a ++ b)
  = numeral_value a * 10 ^ Z.of_nat (String.length b) + numeral_value b.
Proof.
  induction a as [|c a IH]; [simpl; lia|].
  cbn [append numeral_value]. rewrite IH, length_app, Nat2Z.inj_add.
  rewrite Z.pow_add_r by lia. ring.
Qed.

Lemma single_digit_numeral (d : Z) :
  0 <= d <= 9 -> denotes (String (digit_char d) EmptyString) d.
Proof.
  intros H. destruct (digit_char_spec d H) as [D V].
  repeat split; [discriminate| |].
  - cbn [Str.all]. now rewrite D.
  - cbn [numeral_value String.length]. rewrite V.
    change (10 ^ Z.of_nat 0) with 1. lia.
Qed.

Lemma numeral_snoc (ds : string) (q d : Z) :
  denotes ds q -> 0 <= d <= 9 ->
  denotes (ds ++ String (digit_char d) EmptyString) (q * 10 + d).
Proof.
  intros (Hne & Hall & Hval) Hd.
  destruct (single_digit_numeral d Hd) as (_ & Hall1 & Hval1).
  repeat split.
  - destruct ds; [contradiction | discriminate].
  - now rewrite all_app, Hall, Hall1.
  - rewrite numeral_value_app, Hval, Hval1.
    change (10 ^ Z.of_nat (String.length (String (digit_char d) EmptyString))) with 10.
    reflexivity.
Qed.

(** The digits produced are a numeral of the number, given enough fuel. *)
Lemma decimal_digits_spec (fuel : nat) (n : Z) (tail : string) :
  0 <= n < 2 ^ (Z.of_nat fuel + 1) ->
  exists ds, decimal_digits fuel n tail = ds ++ tail /\ denotes ds n.
Proof.
  revert n tail. induction fuel as [|fuel IH]; intros n tail Hn.
  - change (2 ^ (Z.of_nat 0 + 1)) with 2 in Hn.
    exists (String (digit_char n) EmptyString).
    cbn [decimal_digits]. rewrite Z.mod_small by lia.
    split; [reflexivity|]. apply single_digit_numeral. lia.
  - cbn [decimal_digits]. destruct (n <? 10) eqn:L.
    + apply Z.ltb_lt in L. rewrite Z.mod_small by lia.
      exists (String (digit_char n) EmptyString).
      split; [reflexivity|]. apply single_digit_numeral. lia.
    + apply Z.ltb_ge in L.
      assert (Hq : 0 <= n / 10 < 2 ^ (Z.of_nat fuel + 1)).
      { split; [apply Z.div_pos; lia|].
        apply Z.div_lt_upper_bound; [lia|].
        rewrite Nat2Z.inj_succ in Hn.
        replace (Z.succ (Z.of_nat fuel) + 1) with (Z.succ (Z.of_nat fuel + 1)) in Hn by lia.
        rewrite Z.pow_succ_r in Hn by lia. lia. }
      destruct (IH (n / 10) (String (digit_char (n mod 10)) tail) Hq) as (ds & E & N).
      pose proof (Z.mod_pos_bound n 10 ltac:(lia)) as Hr.
      exists (ds ++ String (digit_char (n mod 10)) EmptyString).
      split; [rewrite E, append_assoc; reflexivity|].
      pose proof (numeral_snoc ds (n / 10) (n mod 10) N ltac:(lia)) as R.
      replace (n / 10 * 10 + n mod 10) with n in R
        by (pose proof (Z.div_mod n 10 ltac:(lia)); lia).
      exact R.
Qed.

Lemma decimal_numeral (n : Z) : 0 <= n -> denotes (decimal n) n.
Proof.
  intros Hn. unfold decimal.
  destruct (decimal_digits_spec (Z.to_nat (Z.log2 n)) n EmptyString) as (ds & E & N).
  - rewrite Z2Nat.id by apply Z.log2_nonneg.
    destruct (Z.eq_dec n 0) as [->|Hne]; [simpl; lia|].
    split; [lia|]. rewrite Z.add_1_r. apply Z.log2_spec. lia.
  - rewrite E, append_nil_r. exact N.
Qed.

Lemma zeros_numeral (k : nat) (s : string) (n : Z) :
  denotes s n -> denotes (repeat_char "0" k ++ s) n.
Proof.
  intros (Hne & Hall & Hval). induction k as [|k (IH1 & IH2 & IH3)].
  - now repeat split.
  - repeat split; [discriminate| |].
    + cbn [repeat_char append Str.all]. rewrite IH2. reflexivity.
    + cbn [repeat_char append numeral_value]. rewrite IH3.
      change (digit_value "0") with 0. lia.
Qed.

Lemma repeat_char_length (c : ascii) (k : nat) :
  String.length (repeat_char c k) = k.
Proof. induction k as [|k IH]; simpl; [reflexivity | now rewrite IH]. Qed.

(** A non-negative integer within the days of a timedelta is formatted as
    a numeral of it, zero padded to a width of at most 64 or, with no
    width, as it is. *)
Lemma format_int_numeral (zero_pad : bool) (width : nat) (n : Z) :
  0 <= n <= MAX_DELTA_DAYS -> (width <= 64)%nat -> zero_pad = true \/ width = O ->
  numeral (format_int zero_pad width n) n.
Proof.
  intros Hn Hw Hz. unfold MAX_DELTA_DAYS in Hn.
  assert (Hn' : 0 <= n < 2 ^ 64)
    by (change (2 ^ 64) with 18446744073709551616; lia).
  pose proof (DecimalFacts.decimal_length n 64 Hn') as L.
  assert (D : denotes (format_int zero_pad width n) n
              /\ (String.length (format_int zero_pad width n)
                  <= width + String.length (decimal n))%nat).
  { unfold format_int.
    replace (n <? 0) with false by (symmetry; apply Z.ltb_ge; lia).
    rewrite Z.abs_eq by lia. cbn [append String.length Nat.add].
    destruct zero_pad.
    - split; [apply zeros_numeral, decimal_numeral; lia|].
      rewrite length_app, repeat_char_length. lia.
    - destruct Hz as [Hz | ->]; [discriminate|]. cbn [Nat.sub repeat_char append].
      split; [apply decimal_numeral; lia | lia]. }
  destruct D as ((Hne & Hall & Hval) & Hlen).
  repeat split; try assumption. unfold MAX_STR_DIGITS. lia.
Qed.

Lemma numeral_int (s : string) (n : Z) : numeral s n -> int_ s = Ok n.
Proof. intros (Hne & Hall & <- & Hlen). now apply int_digits. Qed.

Lemma numeral_not_mem (c : ascii) (s : string) (n : Z) :
  is_digit c = false -> numeral s n -> Str.mem c s = false.
Proof. intros Hc (_ & Hall & _). now apply all_digits_not_mem. Qed.

Lemma numeral_permitted (s : string) (n : Z) : numeral s n -> permitted s = true.
Proof. intros (_ & Hall & _). now apply digits_permitted. Qed.

(** A numeral is made of permitted characters and holds no separator. *)
Lemma numeral_clean (s : string) (n : Z) :
  numeral s n ->
  permitted s = true /\ Str.mem " " s = false /\ Str.mem ":" s = false
  /\ Str.mem "." s = false.
Proof.
  intros N. repeat split;
    [now apply (numeral_permitted s n) | | | ];
    now apply (numeral_not_mem _ s n).
Qed.

(** Two colons cut a text into hours, minutes and seconds. *)
Lemma split_time_two_colons (A M sf : string) :
  Str.mem ":" A = false -> Str.mem ":" M = false -> Str.mem ":" sf = false ->
  split_time (A ++ ":" ++ M ++ ":" ++ sf) = Ok (A, M, sf).
Proof.
  intros CA CM Csf. unfold split_time.
  rewrite !count_app. cbn [Str.count Ascii.eqb Bool.eqb].
  rewrite (proj2 (count_0_mem ":" A) CA), (proj2 (count_0_mem ":" M) CM),
    (proj2 (count_0_mem ":" sf) Csf).
  cbn [Nat.add].
  change (A ++ ":" ++ M ++ ":" ++ sf) with (A ++ String ":" (M ++ String ":" sf)).
  rewrite (split_app ":" A _ CA), (split_app ":" M _ CM), (split_no_sep ":" sf Csf).
  reflexivity.
Qed.

Section Clock.

Variables (H M S : string) (suffix : option string) (h m s us : Z).

Hypothesis numeral_H : numeral H h.
Hypothesis numeral_M : numeral M m.
Hypothesis numeral_S : numeral S s.
Hypothesis numeral_suffix :
  match suffix with Some F => numeral F us | None => us = 0 end.

Lemma seconds_text_clean :
  permitted (seconds_text S suffix) = true
  /\ Str.mem " " (seconds_text S suffix) = false
  /\ Str.mem ":" (seconds_text S suffix) = false.
Proof.
  destruct (numeral_clean _ _ numeral_S) as (PS & SS & CS & _).
  unfold seconds_text. destruct suffix as [F|].
  - destruct (numeral_clean _ _ numeral_suffix) as (PF & SF & CF & _).
    rewrite !permitted_app, !mem_app, PS, PF, SS, SF, CS, CF. repeat split.
  - rewrite append_nil_r. auto.
Qed.

Lemma clock_text_clean :
  permitted (clock_text H M S suffix) = true
  /\ Str.mem " " (clock_text H M S suffix) = false.
Proof.
  destruct (numeral_clean _ _ numeral_H) as (PH & SH & _).
  destruct (numeral_clean _ _ numeral_M) as (PM & SM & _).
  destruct seconds_text_clean as (Psf & Ssf & _).
  unfold clock_text.
  rewrite !permitted_app, !mem_app, PH, PM, Psf, SH, SM, Ssf. repeat split.
Qed.

(** The clock behind any text free of colons: that text and the hours
    numeral make the hours field. *)
Lemma split_time_clock (before : string) :
  Str.mem ":" before = false ->
  split_time (before ++ clock_text H M S suffix)
  = Ok (before ++ H, M, seconds_text S suffix).
Proof.
  intros CB.
  destruct (numeral_clean _ _ numeral_H) as (_ & _ & CH & _).
  destruct (numeral_clean _ _ numeral_M) as (_ & _ & CM & _).
  destruct seconds_text_clean as (_ & _ & Csf).
  unfold clock_text. rewrite <- append_assoc.
  apply split_time_two_colons; [|assumption|assumption].
  now rewrite mem_app, CB, CH.
Qed.

Lemma split_seconds_text :
  exists usf, split_seconds (seconds_text S suffix) = (S, usf) /\ int_ usf = Ok us.
Proof.
  destruct (numeral_clean _ _ numeral_S) as (_ & _ & _ & DS).
  unfold seconds_text, split_seconds, Str.contains, Str.partition.
  destruct suffix as [F|].
  - rewrite (find_app "." EmptyString S F DS).
    exists F. split; [reflexivity | now apply numeral_int].
  - rewrite append_nil_r, (find_none "." EmptyString S DS).
    exists "0". rewrite numeral_suffix. split; reflexivity.
Qed.

(** With a plural day prefix or none, the text parses to its numerals. *)
Lemma from_timestr_canonical (prefix : option string) (d : Z) :
  match prefix with Some D => numeral D d | None => d = 0 end ->
  from_timestr (canonical prefix H M S suffix) = Ok (mk_TimeInfo d h m s us).
Proof.
  intros Hd.
  destruct clock_text_clean as (Pseg & Sseg).
  destruct split_seconds_text as (usf & Ssec & Ius).
  pose proof (split_time_clock EmptyString eq_refl) as Tseg.
  cbn [append] in Tseg.
  assert (Dsplit : exists D,
             split_days (canonical prefix H M S suffix)
             = (D, clock_text H M S suffix)
             /\ int_ D = Ok d
             /\ permitted (canonical prefix H M S suffix) = true).
  { unfold canonical. destruct prefix as [D|].
    - destruct (numeral_clean _ _ Hd) as (PD & SD & _).
      exists D. split; [|split].
      + unfold split_days, Str.contains, Str.partition, DAYS_SEP.
        rewrite append_assoc.
        rewrite (find_app " " "days, " D _ SD).
        reflexivity.
      + now apply numeral_int.
      + rewrite !permitted_app, PD, Pseg. reflexivity.
    - exists "0". subst d. split; [|split].
      + apply split_days_no_space. exact Sseg.
      + reflexivity.
      + exact Pseg. }
  destruct Dsplit as (D & Dsplit & Id & Pall).
  unfold from_timestr. fold (permitted (canonical prefix H M S suffix)).
  rewrite Pall, Dsplit. cbn [negb]. rewrite Tseg. cbn [rbind]. rewrite Ssec.
  rewrite Id, (numeral_int _ _ numeral_H), (numeral_int _ _ numeral_M),
    (numeral_int _ _ numeral_S), Ius.
  reflexivity.
Qed.

End Clock.

(** [str] of a timedelta, with the day prefix left aside, is a clock text. *)
Lemma timedelta_str_clock (td : timedelta) :
  timedelta_str td
  = (if td_days td =? 0 then EmptyString
     else format_int false 0 (td_days td) ++ " day"
          ++ (if Z.abs (td_days td) =? 1 then EmptyString else "s") ++ ", ")
    ++ clock_text
         (format_int false 0 (td_seconds td / 60 / 60))
         (format_int true 2 (td_seconds td / 60 mod 60))
         (format_int true 2 (td_seconds td mod 60))
         (if td_microseconds td =? 0 then None
          else Some (format_int true 6 (td_microseconds td))).
Proof.
  unfold timedelta_str, clock_text, seconds_text, divmod.
  destruct (td_days td =? 0); destruct (td_microseconds td =? 0);
    rewrite ?append_assoc; cbn [append]; rewrite ?append_nil_r; reflexivity.
Qed.

(** The numerals of the clock of a timedelta. *)
Lemma clock_numerals (td : timedelta) :
  timedelta_valid td ->
  numeral (format_int false 0 (td_seconds td / 60 / 60)) (td_seconds td / 60 / 60)
  /\ numeral (format_int true 2 (td_seconds td / 60 mod 60)) (td_seconds td / 60 mod 60)
  /\ numeral (format_int true 2 (td_seconds td mod 60)) (td_seconds td mod 60)
  /\ match (if td_microseconds td =? 0 then None
            else Some (format_int true 6 (td_microseconds td))) with
     | Some F => numeral F (td_microseconds td)
     | None => td_microseconds td = 0
     end.
Proof.
  intros (Hd & Hs & Hus).
  pose proof (Z.mod_pos_bound (td_seconds td) 60 ltac:(lia)).
  pose proof (Z.mod_pos_bound (td_seconds td / 60) 60 ltac:(lia)).
  assert (0 <= td_seconds td / 60 / 60 <= 23).
  { rewrite Z.div_div by lia. split; [apply Z.div_pos; lia|].
    apply Z.lt_succ_r, Z.div_lt_upper_bound; lia. }
  unfold MAX_DELTA_DAYS in Hd.
  split; [|split; [|split]];
    try (apply format_int_numeral; [unfold MAX_DELTA_DAYS; lia | lia | auto]).
  destruct (td_microseconds td =? 0) eqn:U0.
  - now apply Z.eqb_eq in U0.
  - apply format_int_numeral; [unfold MAX_DELTA_DAYS; lia | lia | auto].
Qed.

(** Parsing gives back the fields of every non-negative timedelta whose
    [str] has no day prefix or one in the plural. *)
Theorem str_round_trip (td : timedelta) :
  timedelta_valid td -> td_days td = 0 \/ 2 <= td_days td ->
  from_timestr (timedelta_str td) = Ok (from_timedelta td).
Proof.
  intros V Hdays.
  destruct (clock_numerals td V) as (NH & NM & NS & NF).
  rewrite timedelta_str_clock. unfold from_timedelta, divmod.
  pose proof (from_timestr_canonical _ _ _ _ _ _ _ _ NH NM NS NF) as P.
  destruct (td_days td =? 0) eqn:D0.
  - apply Z.eqb_eq in D0. rewrite D0. apply (P None 0). reflexivity.
  - apply Z.eqb_neq in D0.
    replace (Z.abs (td_days td) =? 1) with false by (symmetry; apply Z.eqb_neq; lia).
    specialize (P (Some (format_int false 0 (td_days td))) (td_days td)).
    unfold canonical, DAYS_SEP in P. cbn [append].
    rewrite <- P; [reflexivity|].
    destruct V as (Vd & _).
    apply format_int_numeral; [lia | lia | auto].
Qed.

(** The docstring's example, 12448 days, 16:04:53.742775. *)
Lemma str_round_trip_witness :
  from_timestr (timedelta_str (mk_timedelta 12448 57893 742775))
  = Ok (from_timedelta (mk_timedelta 12448 57893 742775)).
Proof.
  apply (str_round_trip (mk_timedelta 12448 57893 742775)).
  - unfold timedelta_valid, MAX_DELTA_DAYS. simpl. lia.
  - right. simpl. lia.
Defined.

(** ** C3 *)

(** C3 at the input where the code departs from it: for exactly one day
    [str] writes the singular ["1 day, "], in which [from_timestr] finds no
    day separator; it takes ["1 day, 0"] for the hours and [int] refuses
    it. *)
Theorem str_of_one_day_refused :
  timedelta_str (mk_timedelta 1 0 0) = "1 day, 0:00:00"
  /\ from_timestr (timedelta_str (mk_timedelta 1 0 0)) = Raise ValueError.
Proof. split; vm_compute; reflexivity. Qed.

(** Where the separator does not start, [find] looks further. *)
Lemma find_skip (sep : string) (x : ascii) (s : string) :
  Str.strip_prefix sep (String x s) = None ->
  Str.find sep (String x s)
  = match Str.find sep s with
    | Some (before, after) => Some (String x before, after)
    | None => None
    end.
Proof. intros E. cbn [Str.find]. now rewrite E. Qed.

(** Behind the singular ["1 day, "] and in front of a numeral there is no
    day separator. *)
Lemma find_one_day (rest : string) (c : ascii) (r : string) :
  rest = String c r -> is_digit c = true -> Str.mem " " rest = false ->
  Str.find DAYS_SEP ("1 day, " ++ rest) = None.
Proof.
  intros -> Hc Hsp. unfold DAYS_SEP. cbn [append].
  do 6 (rewrite find_skip by reflexivity).
  assert (E : Str.strip_prefix " days, " (String " " (String c r)) = None).
  { cbn [Str.strip_prefix]. change (Ascii.eqb " " " ") with true. cbv iota.
    rewrite Ascii.eqb_sym, (is_digit_neq c "d" Hc eq_refl). reflexivity. }
  rewrite (find_skip _ _ _ E), (find_none " " "days, " _ Hsp). reflexivity.
Qed.

Lemma rstrip_app (a b : string) :
  b <> EmptyString -> Str.all (fun c => negb (Str.is_space c)) b = true ->
  Str.rstrip (a ++ b) = a ++ b.
Proof.
  intros Hne Hb. induction a as [|x a IH].
  - now apply rstrip_no_space.
  - cbn [append Str.rstrip]. rewrite IH.
    destruct (a ++ b) eqn:E; [|reflexivity].
    destruct a; [contradiction | discriminate].
Qed.

(** [int] refuses the hours field that the singular leaves. *)
Lemma int_one_day (H : string) (h : Z) :
  numeral H h -> int_ ("1 day, " ++ H) = Raise ValueError.
Proof.
  intros (Hne & Hall & _). unfold int_, Str.strip.
  change (Str.lstrip ("1 day, " ++ H)) with ("1 day, " ++ H).
  rewrite rstrip_app; [reflexivity | exact Hne |].
  eapply all_impl; [|exact Hall].
  intros c Hc. now rewrite (is_digit_not_space _ Hc).
Qed.

(** The same for every duration of one day and something: none of the
    texts [str] writes for them is parsed. *)
Theorem str_of_one_day_any_time_refused (td : timedelta) :
  timedelta_valid td -> td_days td = 1 ->
  from_timestr (timedelta_str td) = Raise ValueError.
Proof.
  intros V D1.
  destruct (clock_numerals td V) as (NH & NM & NS & NF).
  rewrite timedelta_str_clock, D1.
  change (if 1 =? 0 then EmptyString
          else format_int false 0 1 ++ " day"
               ++ (if Z.abs 1 =? 1 then EmptyString else "s") ++ ", ")
    with "1 day, ".
  set (H := format_int false 0 (td_seconds td / 60 / 60)) in *.
  set (M := format_int true 2 (td_seconds td / 60 mod 60)) in *.
  set (S := format_int true 2 (td_seconds td mod 60)) in *.
  set (suffix := if td_microseconds td =? 0 then None
                 else Some (format_int true 6 (td_microseconds td))) in *.
  destruct (clock_text_clean _ _ _ _ _ _ _ _ NH NM NS NF) as (Pseg & Sseg).
  destruct (split_seconds_text _ _ _ _ NS NF) as (usf & Ssec & Ius).
  pose proof (split_time_clock _ _ _ _ _ _ _ _ NH NM NS NF "1 day, " eq_refl) as Tseg.
  assert (F : Str.find DAYS_SEP ("1 day, " ++ clock_text H M S suffix) = None).
  { destruct NH as (Hne & Hall & _).
    destruct H as [|c r] eqn:EH; [contradiction|].
    apply (find_one_day _ c (r ++ ":" ++ M ++ ":" ++ seconds_text S suffix));
      [reflexivity | now apply andb_true_iff in Hall | exact Sseg]. }
  unfold from_timestr. fold (permitted ("1 day, " ++ clock_text H M S suffix)).
  rewrite permitted_app, Pseg. change (permitted "1 day, ") with true.
  cbn [andb negb]. unfold split_days, Str.contains. rewrite F.
  rewrite Tseg. cbn [rbind]. rewrite Ssec.
  change (int_ "0") with (Ok (A:=Z) 0). cbn [rbind].
  rewrite (int_one_day H _ NH). reflexivity.
Qed.

(** One day, one hour, one second and a microsecond. *)
Lemma str_of_one_day_any_time_refused_witness :
  from_timestr (timedelta_str (mk_timedelta 1 3601 1)) = Raise ValueError.
Proof.
  apply (str_of_one_day_any_time_refused (mk_timedelta 1 3601 1)).
  - unfold timedelta_valid, MAX_DELTA_DAYS. simpl. lia.
  - reflexivity.
Defined.

(** A negative timedelta is outside the parser's alphabet: [str] writes
    a minus sign. *)
Example str_of_negative_refused :
  timedelta_str (mk_timedelta (-1) 86399 0) = "-1 day, 23:59:59"
  /\ from_timestr (timedelta_str (mk_timedelta (-1) 86399 0)) = Raise AssertionError.
Proof. split; vm_compute; reflexivity. Qed.

End RoundTrip.

(* ================================================================== *)
(** * From text to [timedelta] *)
(* ================================================================== *)

Module Conversion.

Import StrFacts IntFacts Parser TimedeltaFacts RoundTrip.

(** Minutes and hours go into the seconds before anything else. *)
Lemma new_fields (d s us m h : Z) :
  timedelta_new d s us m h = timedelta_new d (s + m * 60 + h * 3600) us 0 0.
Proof.
  unfold timedelta_new.
  replace (s + m * 60 + h * 3600 + 0 * 60 + 0 * 3600) with (s + m * 60 + h * 3600)
    by lia.
  reflexivity.
Qed.

(** The constructor on the fields of a [TimeInfo], by their length. *)
Lemma new_of_fields (t : TimeInfo) :
  timedelta_new (days t) (seconds t) (microseconds t) (minutes t) (hours t)
  = if Z.abs (field_total t / 86400000000) >? MAX_DELTA_DAYS
    then Raise OverflowError
    else Ok (timedelta_of_microseconds (field_total t)).
Proof.
  rewrite new_fields, new_total. unfold field_total.
  replace ((days t * 86400 + (seconds t + minutes t * 60 + hours t * 3600)) * 1000000
           + microseconds t)
    with ((((days t * 24 + hours t) * 60 + minutes t) * 60 + seconds t) * 1000000
          + microseconds t) by ring.
  reflexivity.
Qed.

Lemma of_microseconds_valid (n : Z) :
  0 <= n < (MAX_DELTA_DAYS + 1) * 86400000000 ->
  timedelta_valid (timedelta_of_microseconds n).
Proof.
  unfold MAX_DELTA_DAYS. intros Hn.
  destruct (of_microseconds_reduced n) as [Hs Hus].
  unfold timedelta_valid, MAX_DELTA_DAYS. repeat split; try tauto.
  - cbn. pose proof (Z.div_pos n 86400000000 ltac:(lia) ltac:(lia)). lia.
  - cbn. apply Z.lt_succ_r, Z.div_lt_upper_bound; lia.
Qed.

Lemma of_microseconds_total (t : timedelta) :
  reduced t -> timedelta_of_microseconds (total_microseconds t) = t.
Proof.
  destruct t as [d s us]. unfold reduced, total_microseconds, timedelta_of_microseconds.
  cbn. intros [Hs Hus]. f_equal; Z.div_mod_to_equations; lia.
Qed.

(** The fields of [from_timedelta] stand for the length of the timedelta. *)
Lemma field_total_from_timedelta (td : timedelta) :
  field_total (from_timedelta td) = total_microseconds td.
Proof.
  unfold field_total, from_timedelta, total_microseconds, divmod. cbn.
  Z.div_mod_to_equations. lia.
Qed.

(** X3: for a text [from_timestr] accepts, [timedelta_from_timestr] gives
    the normalised timedelta as long as the fields taken each in its unit
    (so that 99 minutes carry over into the hours), and raises
    [OverflowError] exactly when that length reaches 1000000000 days. *)
Theorem timedelta_from_timestr_length (timestr : string) (t : TimeInfo) :
  from_timestr timestr = Ok t ->
  (field_total t < (MAX_DELTA_DAYS + 1) * 86400000000 ->
   exists td,
     timedelta_from_timestr timestr = Ok td
     /\ timedelta_valid td
     /\ total_microseconds td = field_total t)
  /\ ((MAX_DELTA_DAYS + 1) * 86400000000 <= field_total t ->
      timedelta_from_timestr timestr = Raise OverflowError).
Proof.
  intros H.
  pose proof (from_timestr_non_negative _ _ H) as (Hd & Hh & Hm & Hs & Hus).
  assert (N : 0 <= field_total t) by (unfold field_total; nia).
  unfold timedelta_from_timestr. rewrite H. cbn [rbind]. rewrite new_of_fields.
  pose proof (Z.div_pos (field_total t) 86400000000 N ltac:(lia)) as Q.
  rewrite Z.abs_eq by exact Q.
  unfold MAX_DELTA_DAYS in *. split; intros B.
  - rewrite gtb_false
      by (apply Z.lt_succ_r, Z.div_lt_upper_bound; lia).
    eexists. split; [reflexivity|]. split.
    + apply of_microseconds_valid. unfold MAX_DELTA_DAYS. lia.
    + apply total_of_microseconds.
  - rewrite gtb_true; [reflexivity|].
    pose proof (Z.div_le_lower_bound (field_total t) 86400000000 1000000000
                  ltac:(lia) ltac:(lia)).
    lia.
Qed.

(** ["99:99:99"] is 4 days, 4:40:39. *)
Lemma timedelta_from_timestr_length_witness :
  exists td,
    timedelta_from_timestr "99:99:99" = Ok td
    /\ timedelta_valid td
    /\ total_microseconds td = field_total (mk_TimeInfo 0 99 99 99 0).
Proof.
  apply (timedelta_from_timestr_length "99:99:99" (mk_TimeInfo 0 99 99 99 0) eq_refl).
  vm_compute. reflexivity.
Defined.

Lemma split_time_raises (seg : string) (e : exn) :
  split_time seg = Raise e -> e = ValueError.
Proof.
  unfold split_time.
  destruct (Str.count ":" seg) as [|[|[|n]]]; try congruence;
    destruct (Str.split ":" seg) as [|x [|y [|z [|u l]]]]; congruence.
Qed.

(** The parser fails in two ways only: on the character check, or with a
    [ValueError] on text that passed it. *)
Lemma from_timestr_raises (timestr : string) (e : exn) :
  from_timestr timestr = Raise e ->
  (permitted timestr = false /\ e = AssertionError)
  \/ (permitted timestr = true /\ e = ValueError).
Proof.
  unfold from_timestr. fold (permitted timestr).
  destruct (permitted timestr); cbn [negb]; [|intros H; left; split; congruence].
  intros H. right. split; [reflexivity|].
  destruct (split_days timestr) as [d seg].
  destruct (split_time seg) as [[[h m] sf]|e0] eqn:T;
    [|apply split_time_raises in T; cbn [rbind] in H; congruence].
  cbn [rbind] in H. destruct (split_seconds sf) as [s us].
  destruct (int_ d) as [nd|e0] eqn:Ed;
    [|apply int_raises in Ed; cbn [rbind] in H; congruence].
  destruct (int_ h) as [nh|e0] eqn:Eh;
    [|apply int_raises in Eh; cbn [rbind] in H; congruence].
  destruct (int_ m) as [nm|e0] eqn:Em;
    [|apply int_raises in Em; cbn [rbind] in H; congruence].
  destruct (int_ s) as [ns|e0] eqn:Es;
    [|apply int_raises in Es; cbn [rbind] in H; congruence].
  destruct (int_ us) as [nus|e0] eqn:Eus;
    [|apply int_raises in Eus; cbn [rbind] in H; congruence].
  cbn [rbind] in H. discriminate.
Qed.

(** X4: [timedelta_from_timestr] fails in three ways only: with
    [AssertionError] exactly on text with a character outside the permitted
    set, with [ValueError] on permitted text the parser cannot read, and
    with [OverflowError] on text that parses to fields too long for a
    timedelta. *)
Theorem timedelta_from_timestr_raises (timestr : string) (e : exn) :
  timedelta_from_timestr timestr = Raise e ->
  (permitted timestr = false /\ e = AssertionError)
  \/ (permitted timestr = true /\ from_timestr timestr = Raise ValueError
      /\ e = ValueError)
  \/ (permitted timestr = true /\ e = OverflowError
      /\ exists t, from_timestr timestr = Ok t
                   /\ (MAX_DELTA_DAYS + 1) * 86400000000 <= field_total t).
Proof.
  unfold timedelta_from_timestr.
  destruct (from_timestr timestr) as [t|e0] eqn:F; cbn [rbind].
  - intros H. right; right.
    destruct (from_timestr_inv _ _ F) as [P _].
    pose proof (from_timestr_non_negative _ _ F) as (Hd & Hh & Hm & Hs & Hus).
    assert (N : 0 <= field_total t) by (unfold field_total; nia).
    rewrite new_of_fields in H.
    rewrite Z.abs_eq in H by (apply Z.div_pos; lia).
    unfold MAX_DELTA_DAYS in *.
    destruct (field_total t / 86400000000 >? 999999999) eqn:G; [|discriminate].
    split; [exact P|]. split; [congruence|].
    exists t. split; [reflexivity|].
    rewrite Z.gtb_ltb in G. apply Z.ltb_lt in G.
    pose proof (Z.mul_div_le (field_total t) 86400000000 ltac:(lia)). lia.
  - intros H. inversion H; subst e0.
    destruct (from_timestr_raises _ _ F) as [[P E]|[P E]]; subst e.
    + left. auto.
    + right; left. auto.
Qed.

(** A day count beyond the range is not a parse error. *)
Lemma timedelta_from_timestr_raises_witness :
  (permitted "1000000000 days, 0:0:0" = false /\ OverflowError = AssertionError)
  \/ (permitted "1000000000 days, 0:0:0" = true
      /\ from_timestr "1000000000 days, 0:0:0" = Raise ValueError
      /\ OverflowError = ValueError)
  \/ (permitted "1000000000 days, 0:0:0" = true /\ OverflowError = OverflowError
      /\ exists t, from_timestr "1000000000 days, 0:0:0" = Ok t
                   /\ (MAX_DELTA_DAYS + 1) * 86400000000 <= field_total t).
Proof.
  apply (timedelta_from_timestr_raises "1000000000 days, 0:0:0" OverflowError).
  reflexivity.
Defined.

(** X5: through [timedelta_from_timestr], the text [str] writes for a
    non-negative timedelta gives that timedelta back, unless its days
    field is 1. *)
Theorem timedelta_str_round_trip (td : timedelta) :
  timedelta_valid td -> td_days td = 0 \/ 2 <= td_days td ->
  timedelta_from_timestr (timedelta_str td) = Ok td.
Proof.
  intros V Hdays.
  assert (P : from_timestr (timedelta_str td) = Ok (from_timedelta td)).
  { destruct (clock_numerals td V) as (NH & NM & NS & NF).
    destruct V as (Hd & _).
    rewrite timedelta_str_clock. unfold from_timedelta, divmod.
    pose proof (from_timestr_canonical _ _ _ _ _ _ _ _ NH NM NS NF) as C.
    destruct (td_days td =? 0) eqn:D0.
    - apply Z.eqb_eq in D0. rewrite D0. apply (C None 0). reflexivity.
    - apply Z.eqb_neq in D0.
      replace (Z.abs (td_days td) =? 1) with false
        by (symmetry; apply Z.eqb_neq; lia).
      specialize (C (Some (format_int false 0 (td_days td))) (td_days td)).
      unfold canonical, DAYS_SEP in C. cbn [append].
      rewrite <- C; [reflexivity|].
      apply format_int_numeral; [lia | lia | auto]. }
  unfold timedelta_from_timestr. rewrite P. cbn [rbind].
  rewrite new_of_fields, field_total_from_timedelta.
  destruct V as (Hd & Hs & Hus). unfold MAX_DELTA_DAYS in *.
  assert (Q : total_microseconds td / 86400000000 = td_days td)
    by (unfold total_microseconds; Z.div_mod_to_equations; lia).
  rewrite Q, gtb_false by lia.
  rewrite of_microseconds_total; [reflexivity|]. split; assumption.
Qed.

Lemma timedelta_str_round_trip_witness :
  timedelta_from_timestr (timedelta_str (mk_timedelta 12448 57893 742775))
  = Ok (mk_timedelta 12448 57893 742775).
Proof.
  apply (timedelta_str_round_trip (mk_timedelta 12448 57893 742775)).
  - unfold timedelta_valid, MAX_DELTA_DAYS. simpl. lia.
  - right. simpl. lia.
Defined.

(** X12: on text whose fields are already within their ranges, parsing to
    a timedelta and decomposing it again gives the parsed fields back:
    the two constructors of [TimeInfo] agree through
    [timedelta_from_timestr]. *)
Theorem from_timedelta_of_parsed (timestr : string) (t : TimeInfo) :
  from_timestr timestr = Ok t ->
  normalized t -> days t <= MAX_DELTA_DAYS ->
  exists td,
    timedelta_from_timestr timestr = Ok td /\ from_timedelta td = t.
Proof.
  intros H (Hh & Hm & Hs & Hus) Hd.
  pose proof (from_timestr_non_negative _ _ H) as (Hd0 & _).
  unfold timedelta_from_timestr. rewrite H. cbn [rbind]. rewrite new_of_fields.
  unfold MAX_DELTA_DAYS in *.
  assert (Q : field_total t / 86400000000 = days t)
    by (unfold field_total; Z.div_mod_to_equations; lia).
  rewrite Q, gtb_false by lia.
  eexists. split; [reflexivity|].
  destruct t as [d h m s us]. cbn in *.
  unfold from_timedelta, timedelta_of_microseconds, field_total, divmod. cbn.
  f_equal; Z.div_mod_to_equations; lia.
Qed.

Lemma from_timedelta_of_parsed_witness :
  exists td,
    timedelta_from_timestr "12448 days, 16:04:53.742775" = Ok td
    /\ from_timedelta td = mk_TimeInfo 12448 16 4 53 742775.
Proof.
  apply (from_timedelta_of_parsed "12448 days, 16:04:53.742775"
           (mk_TimeInfo 12448 16 4 53 742775) eq_refl).
  - unfold normalized. simpl. lia.
  - unfold MAX_DELTA_DAYS. simpl. lia.
Defined.

End Conversion.

(* ================================================================== *)
(** * What a run that returns has counted *)
(* ================================================================== *)

Module Accounting.

Import TimedeltaFacts Run.

(** A sequence that returns ran both of its parts. *)
Lemma bind_ok {A B : Type} (m : IO A) (k : A -> IO B) (out out' : list string)
    (b : B) :
  bind m k out = (Ok b, out') ->
  exists a out1, m out = (Ok a, out1) /\ k a out1 = (Ok b, out').
Proof.
  unfold bind. destruct (m out) as [[a|e] out1]; [eauto | discriminate].
Qed.

Lemma ret_ok {A : Type} (a b : A) (out out' : list string) :
  ret a out = (Ok b, out') -> a = b.
Proof. unfold ret. congruence. Qed.

Section Returned.

Variable py : library.
Variable output_format : string.
Variable final_only : bool.
Variable update_interval : float.
Variable threshold : timedelta.

Hypothesis threshold_reduced : reduced threshold.

(** A tick that returns has moved the checkpoint and counted the interval
    or not. *)
Lemma tick_inv (end_ : datetime) (v v' : loop_vars) (out out' : list string) :
  tick final_only threshold end_ v out = (Ok v', out') ->
  start v' = end_
  /\ total_microseconds (elapsed v')
     = total_microseconds (elapsed v)
       + counted_microseconds (total_microseconds threshold) (start v) [end_].
Proof.
  unfold tick. cbn [counted_microseconds].
  rewrite (gt_total _ _ (interval_reduced _ _) threshold_reduced), interval_total.
  destruct (end_ - start v >? total_microseconds threshold).
  - intros H. apply bind_ok in H as (a & o & _ & H). apply ret_ok in H.
    subst v'. cbn. lia.
  - rewrite add_total, interval_total.
    destruct (Z.abs _ >? MAX_DELTA_DAYS); unfold bind, lift; [discriminate|].
    intros H. apply ret_ok in H. subst v'. cbn.
    rewrite total_of_microseconds. lia.
Qed.

Lemma run_loop_inv (ticks : list datetime) (v v' : loop_vars)
    (out out' : list string) :
  run_loop py output_format final_only update_interval threshold ticks v out
  = (Ok v', out') ->
  start v' = last ticks (start v)
  /\ total_microseconds (elapsed v')
     = total_microseconds (elapsed v)
       + counted_microseconds (total_microseconds threshold) (start v) ticks.
Proof.
  revert v out. induction ticks as [|t ticks IH]; intros v out H.
  - apply ret_ok in H. subst v'. cbn. lia.
  - cbn [run_loop] in H.
    apply bind_ok in H as (v1 & o1 & H1 & H2).
    unfold iteration in H1.
    apply bind_ok in H1 as (a & o2 & _ & H1).
    apply bind_ok in H1 as (v2 & o3 & Ht & H1).
    apply bind_ok in H1 as (b & o4 & _ & H1).
    apply ret_ok in H1. subst v2.
    apply tick_inv in Ht as [S1 A1].
    apply IH in H2 as [S2 A2].
    rewrite S2, A2, A1, S1, (counted_cons _ (start v) t ticks).
    split; [symmetry; apply last_cons | lia].
Qed.

Lemma interrupted_iteration_inv (p : interrupt_point) (v v' : loop_vars)
    (out out' : list string) :
  interrupted_iteration py final_only update_interval threshold p v out
  = (Ok v', out') ->
  total_microseconds (elapsed v')
  = total_microseconds (elapsed v)
    + match p with
      | before_display end_ =>
          counted_microseconds (total_microseconds threshold) (start v) [end_]
      | _ => 0
      end.
Proof.
  unfold interrupted_iteration. intros H.
  apply bind_ok in H as (a & o & _ & H).
  destruct p as [|end_|end_].
  - apply ret_ok in H. subst v'. lia.
  - apply ret_ok in H. subst v'. cbn. lia.
  - apply tick_inv in H as [_ A]. exact A.
Qed.

End Returned.

(** Whatever [timer] returns is the initial time plus what was counted
    over the readings accounted for. *)
Lemma timer_inv (py : library) (initial_time : option timedelta)
    (update_interval suspend_margin : option float)
    (output_format : option string) (final_only : bool) (w : world)
    (out out' : list string) (returned : timedelta) :
  timer py initial_time update_interval suspend_margin output_format final_only w out
  = (Ok returned, out') ->
  let u := or_default update_interval DEFAULT_UPDATE_INTERVAL in
  let m := or_default suspend_margin u in
  exists threshold,
    timedelta_of_seconds (u + m) = Ok threshold
    /\ total_microseconds returned
       = total_microseconds (or_default initial_time timedelta_zero)
         + counted_microseconds (total_microseconds threshold) (clock_start w)
                                (accounted w).
Proof.
  intros H u m. unfold timer in H. fold u in H. fold m in H.
  apply bind_ok in H as (a & o1 & _ & H).
  apply bind_ok in H as (T & o2 & HT & H).
  unfold lift in HT. inversion HT as [[ET Eo]]. clear HT.
  exists T. split; [exact ET|].
  pose proof (of_seconds_reduced _ _ ET) as Hred.
  apply bind_ok in H as (b & o3 & _ & H).
  apply bind_ok in H as (v1 & o4 & HL & H).
  apply bind_ok in H as (v2 & o5 & HI & H).
  apply (run_loop_inv _ _ _ _ _ Hred) in HL as [S1 A1].
  apply (interrupted_iteration_inv _ _ _ _ Hred) in HI.
  unfold on_keyboard_interrupt in H.
  apply bind_ok in H as (c & o6 & _ & H).
  apply bind_ok in H as (d & o7 & _ & H).
  apply bind_ok in H as (e & o8 & _ & H).
  apply ret_ok in H. subst returned.
  rewrite HI, A1. cbn [elapsed start]. unfold accounted.
  destruct (interrupt w) as [|end_|end_]; [lia | lia |].
  rewrite counted_app, S1. cbn [start]. lia.
Qed.

(** With a clock that never goes back, what is counted lies between
    nothing and the time the clock has moved. *)
Lemma counted_bounds (T : Z) (ticks : list datetime) (c : datetime) :
  nondecreasing c ticks ->
  0 <= counted_microseconds T c ticks <= last ticks c - c.
Proof.
  revert c. induction ticks as [|t ticks IH]; intros c H.
  - cbn. lia.
  - destruct H as [Hc Hn]. specialize (IH t Hn).
    rewrite last_cons. cbn [counted_microseconds].
    destruct (t - c >? T); lia.
Qed.

(** Without a gap everything is counted. *)
Lemma counted_no_gap (T : Z) (ticks : list datetime) (c : datetime) :
  no_gap T c ticks -> counted_microseconds T c ticks = last ticks c - c.
Proof.
  revert c. induction ticks as [|t ticks IH]; intros c H.
  - cbn. lia.
  - destruct H as [Hc Hn]. specialize (IH t Hn).
    rewrite last_cons. cbn [counted_microseconds].
    rewrite (gtb_false _ _ Hc). lia.
Qed.

(** No reading adds more than the threshold. *)
Lemma counted_cap (T : Z) (ticks : list datetime) (c : datetime) :
  counted_microseconds T c ticks <= Z.of_nat (List.length ticks) * Z.max 0 T.
Proof.
  revert c. induction ticks as [|t ticks IH]; intros c.
  - cbn. lia.
  - specialize (IH t). cbn [counted_microseconds List.length].
    rewrite Nat2Z.inj_succ.
    destruct (t - c >? T) eqn:G.
    + lia.
    + rewrite Z.gtb_ltb in G. apply Z.ltb_ge in G. lia.
Qed.

(** X6: whenever [timer] returns and the clock never went back, the time
    returned is at least the initial time and exceeds it by no more than
    the clock moved between the start and the last reading accounted
    for. *)
Theorem returned_within_wall_clock (py : library) (initial_time : option timedelta)
    (update_interval suspend_margin : option float)
    (output_format : option string) (final_only : bool) (w : world)
    (out out' : list string) (returned : timedelta) :
  timer py initial_time update_interval suspend_margin output_format final_only w out
  = (Ok returned, out') ->
  nondecreasing (clock_start w) (accounted w) ->
  let initial := or_default initial_time timedelta_zero in
  total_microseconds initial <= total_microseconds returned
  <= total_microseconds initial + (last (accounted w) (clock_start w) - clock_start w).
Proof.
  intros H Hmono initial.
  destruct (timer_inv _ _ _ _ _ _ _ _ _ _ H) as (T & _ & E).
  fold initial in E.
  pose proof (counted_bounds (total_microseconds T) _ _ Hmono). lia.
Qed.

(** Ten seconds to start with, three readings a second apart, one of a
    minute later, the interrupt in [sleep]. *)
Lemma returned_within_wall_clock_witness :
  let w := mk_world 0 [1000000; 2000000; 3000000; 63000000] in_sleep in
  total_microseconds (mk_timedelta 0 10 0)
  <= total_microseconds (mk_timedelta 0 13 0)
  <= total_microseconds (mk_timedelta 0 10 0)
     + (last (accounted w) (clock_start w) - clock_start w).
Proof.
  intros w.
  eapply (returned_within_wall_clock example_library (Some (mk_timedelta 0 10 0)) (Some 1%float)
            None None false w [] _ (mk_timedelta 0 13 0)).
  - vm_compute. reflexivity.
  - unfold w, accounted. cbn. lia.
Defined.

(** X7: whenever [timer] returns and no interval accounted for was above
    the threshold, the time returned is the initial time plus exactly the
    time the clock moved between the start and the last reading accounted
    for. *)
Theorem returned_without_gap (py : library) (initial_time : option timedelta)
    (update_interval suspend_margin : option float)
    (output_format : option string) (final_only : bool) (w : world)
    (out out' : list string) (returned threshold : timedelta) :
  timer py initial_time update_interval suspend_margin output_format final_only w out
  = (Ok returned, out') ->
  let u := or_default update_interval DEFAULT_UPDATE_INTERVAL in
  let m := or_default suspend_margin u in
  timedelta_of_seconds (u + m) = Ok threshold ->
  no_gap (total_microseconds threshold) (clock_start w) (accounted w) ->
  total_microseconds returned
  = total_microseconds (or_default initial_time timedelta_zero)
    + (last (accounted w) (clock_start w) - clock_start w).
Proof.
  intros H u m HT Hgap.
  destruct (timer_inv _ _ _ _ _ _ _ _ _ _ H) as (T & HT' & E).
  fold u in HT'. fold m in HT'.
  assert (T = threshold) by congruence. subst T.
  rewrite E, (counted_no_gap _ _ _ Hgap). reflexivity.
Qed.

(** Ten seconds to start with and three ticks of one second: thirteen
    seconds. *)
Lemma returned_without_gap_witness :
  let w := mk_world 0 [1000000; 2000000; 3000000] in_sleep in
  total_microseconds (mk_timedelta 0 13 0)
  = total_microseconds (mk_timedelta 0 10 0)
    + (last (accounted w) (clock_start w) - clock_start w).
Proof.
  intros w.
  eapply (returned_without_gap example_library (Some (mk_timedelta 0 10 0)) (Some 1%float)
            None None false w [] _ (mk_timedelta 0 13 0) (mk_timedelta 0 2 0)).
  - vm_compute. reflexivity.
  - reflexivity.
  - unfold w, accounted. cbn. lia.
Defined.

(** X8: whenever [timer] returns, the time returned exceeds the initial
    time by no more than the threshold for each reading accounted for:
    time beyond the threshold between two readings is never counted. *)
Theorem returned_capped (py : library) (initial_time : option timedelta)
    (update_interval suspend_margin : option float)
    (output_format : option string) (final_only : bool) (w : world)
    (out out' : list string) (returned threshold : timedelta) :
  timer py initial_time update_interval suspend_margin output_format final_only w out
  = (Ok returned, out') ->
  let u := or_default update_interval DEFAULT_UPDATE_INTERVAL in
  let m := or_default suspend_margin u in
  timedelta_of_seconds (u + m) = Ok threshold ->
  total_microseconds returned
  <= total_microseconds (or_default initial_time timedelta_zero)
     + Z.of_nat (List.length (accounted w))
       * Z.max 0 (total_microseconds threshold).
Proof.
  intros H u m HT.
  destruct (timer_inv _ _ _ _ _ _ _ _ _ _ H) as (T & HT' & E).
  fold u in HT'. fold m in HT'.
  assert (T = threshold) by congruence. subst T.
  pose proof (counted_cap (total_microseconds threshold) (accounted w) (clock_start w)).
  lia.
Qed.

(** A minute between two readings counts for nothing under a threshold
    of two seconds. *)
Lemma returned_capped_witness :
  let w := mk_world 0 [1000000; 61000000; 62000000] in_sleep in
  total_microseconds (mk_timedelta 0 12 0)
  <= total_microseconds (mk_timedelta 0 10 0)
     + Z.of_nat (List.length (accounted w))
       * Z.max 0 (total_microseconds (mk_timedelta 0 2 0)).
Proof.
  intros w.
  eapply (returned_capped example_library (Some (mk_timedelta 0 10 0)) (Some 1%float)
            None None false w [] _ (mk_timedelta 0 12 0) (mk_timedelta 0 2 0)).
  - vm_compute. reflexivity.
  - reflexivity.
Defined.

End Accounting.

(* ================================================================== *)
(** * Runs that end in an exception *)
(* ================================================================== *)

Module Failing.

Import TimedeltaFacts Run.

(** A float below zero is not at least zero. *)
Lemma negative_not_leb (x : float) : (x <? 0)%float = true -> (0 <=? x)%float = false.
Proof.
  rewrite ltb_spec, leb_spec.
  change (Prim2SF 0) with (S754_zero false).
  destruct (Prim2SF x) as [s|s| |s m e]; try destruct s; cbn; congruence.
Qed.

(** X9: a negative update interval given without a margin makes the margin
    negative too, and the run stops on the margin's assertion before
    anything is printed, whatever the other arguments. *)
Theorem negative_interval_fails_margin_assertion (py : library)
    (initial_time : option timedelta) (update_interval : float)
    (output_format : option string) (final_only : bool) (w : world)
    (out : list string) :
  (update_interval <? 0)%float = true ->
  timer py initial_time (Some update_interval) None output_format final_only w out
  = (Raise AssertionError, out).
Proof.
  intros H. unfold timer. cbn [or_default].
  unfold bind at 1. rewrite (negative_not_leb _ H). reflexivity.
Qed.

Lemma negative_interval_fails_margin_assertion_witness :
  timer example_library None (Some (-1)%float) None None false
        (mk_world 0 [1000000] in_sleep) []
  = (Raise AssertionError, []).
Proof.
  apply (negative_interval_fails_margin_assertion example_library None (-1)%float
           None false).
  reflexivity.
Defined.

(** X10: when the margin passes the assertion and the threshold is a
    timedelta but [sleep] refuses the update interval, the run ends with
    the exception of [sleep] in its first iteration, having printed the
    opening blank line at most; no reading of the clock is accounted
    for. *)
Theorem refused_interval_ends_first_iteration (py : library)
    (initial_time : option timedelta) (update_interval suspend_margin : option float)
    (output_format : option string) (final_only : bool) (w : world)
    (out : list string) (threshold : timedelta) (e : exn) :
  let u := or_default update_interval DEFAULT_UPDATE_INTERVAL in
  let m := or_default suspend_margin u in
  (0 <=? m)%float = true ->
  timedelta_of_seconds (u + m) = Ok threshold ->
  sleep_error py u = Some e ->
  timer py initial_time update_interval suspend_margin output_format final_only w out
  = (Raise e, (out ++ if final_only then [] else [EmptyString])%list).
Proof.
  intros u m Hm HT Hs. unfold timer. fold u. fold m.
  unfold bind at 1. rewrite Hm. cbn [negb when]. unfold ret at 1.
  unfold bind at 1, lift. rewrite HT.
  unfold bind at 1.
  assert (E0 : when (negb final_only) (print EmptyString) out
               = (Ok tt, (out ++ if final_only then [] else [EmptyString])%list)).
  { destruct final_only; cbn; [now rewrite app_nil_r | reflexivity]. }
  rewrite E0.
  assert (S : forall o, sleep py u o = (Raise e, o))
    by (intros o; unfold sleep; now rewrite Hs).
  destruct (clock_ticks w) as [|t ticks].
  - unfold bind at 1. cbn [run_loop]. unfold ret at 1.
    unfold bind at 1. unfold interrupted_iteration, bind at 1.
    now rewrite S.
  - unfold bind at 1. cbn [run_loop]. unfold bind at 1.
    unfold iteration, bind at 1. now rewrite S.
Qed.

(** An interval of minus one second with a margin of two. *)
Lemma refused_interval_ends_first_iteration_witness :
  timer example_library None (Some (-1)%float) (Some 2%float) None false
        (mk_world 0 [1000000; 2000000] in_sleep) []
  = (Raise ValueError, [EmptyString]).
Proof.
  apply (refused_interval_ends_first_iteration example_library None (Some (-1)%float)
           (Some 2%float) None false (mk_world 0 [1000000; 2000000] in_sleep) []
           (mk_timedelta 0 1 0) ValueError); reflexivity.
Defined.

(** X11: in final-only mode a template that [str.format] refuses goes
    unnoticed while the loop runs; at the interrupt the handler prints its
    blank line, the display of the elapsed time raises, and the run ends
    in that exception without returning the elapsed time, whatever the
    clock readings. *)
Theorem silent_run_with_refused_template_never_returns (py : library)
    (initial_time : option timedelta) (update_interval suspend_margin : option float)
    (output_format : option string) (w : world) (threshold : timedelta) (e : exn) :
  let u := or_default update_interval DEFAULT_UPDATE_INTERVAL in
  let m := or_default suspend_margin u in
  let initial := or_default initial_time timedelta_zero in
  str_format py (or_default output_format DEFAULT_OUTPUT_FORMAT)
    (from_timedelta (final_elapsed (total_microseconds threshold) initial w))
  = Raise e ->
  (0 <=? m)%float = true ->
  sleep_error py u = None ->
  timedelta_of_seconds (u + m) = Ok threshold ->
  in_range (total_microseconds threshold) (total_microseconds initial)
           (clock_start w) (accounted w) = true ->
  timer py initial_time update_interval suspend_margin output_format true w []
  = (Raise e, [EmptyString]).
Proof.
  intros u m initial Hfmt Hm Hu HT Hrange.
  rewrite (timer_reaches_handler py initial_time update_interval suspend_margin
             output_format true w threshold (fun _ => EmptyString));
    try assumption; [|discriminate].
  rewrite (on_keyboard_interrupt_raises _ _ _ _ _ _ Hfmt).
  now rewrite shown_by_loop_silent.
Qed.

(** A misspelt field name, three silent ticks, then the interrupt. *)
Lemma silent_run_with_refused_template_never_returns_witness :
  timer example_library None None None (Some "{hour}h") true
        (mk_world 0 [10000; 20000; 30000] in_sleep) []
  = (Raise KeyError, [EmptyString]).
Proof.
  apply (silent_run_with_refused_template_never_returns example_library
           None None None
           (Some "{hour}h") (mk_world 0 [10000; 20000; 30000] in_sleep)
           (mk_timedelta 0 0 20000) KeyError); reflexivity.
Defined.

End Failing.

(* ================================================================== *)
(** * What the display shows *)
(* ================================================================== *)

Module Display.

Import Run.

(** A rendering depends on the fields its pieces name only. *)
Lemma render_ext (t1 t2 : TimeInfo) (ps : list piece) :
  Forall (fun p => match p with
                   | Repl f _ _ => get_field f t1 = get_field f t2
                   | Lit _ => True
                   end) ps ->
  render t1 ps = render t2 ps.
Proof.
  induction 1 as [|p ps Hp _ IH]; [reflexivity|].
  cbn [render]. rewrite IH. f_equal.
  destruct p as [c|f z w]; cbn [render_piece]; [reflexivity | now rewrite Hp].
Qed.

(** X13: with the default output format the line [msg] prints does not
    show the days: two elapsed times with the same seconds and
    microseconds within the day are displayed alike, so the display starts
    again from 00h after twenty-four hours. *)
Theorem default_display_ignores_days (py : library) (elapsed1 elapsed2 : timedelta)
    (out : list string) :
  td_seconds elapsed1 = td_seconds elapsed2 ->
  td_microseconds elapsed1 = td_microseconds elapsed2 ->
  msg py DEFAULT_OUTPUT_FORMAT false elapsed1 out
  = msg py DEFAULT_OUTPUT_FORMAT false elapsed2 out.
Proof.
  intros Hs Hus. unfold msg, bind, lift, str_format.
  set (r := scan InText DEFAULT_OUTPUT_FORMAT). vm_compute in r. subst r.
  cbv beta iota.
  rewrite (render_ext (from_timedelta elapsed1) (from_timedelta elapsed2));
    [reflexivity|].
  unfold from_timedelta, divmod. rewrite Hs, Hus.
  repeat constructor.
Qed.

(** One hour, and one day and one hour. *)
Lemma default_display_ignores_days_witness :
  msg example_library DEFAULT_OUTPUT_FORMAT false (mk_timedelta 0 3600 0) []
  = msg example_library DEFAULT_OUTPUT_FORMAT false (mk_timedelta 1 3600 0) [].
Proof.
  apply (default_display_ignores_days example_library
           (mk_timedelta 0 3600 0) (mk_timedelta 1 3600 0));
    reflexivity.
Defined.

(** X15: when the loop displays and has run one iteration at least, an
    interrupt that arrives in [sleep] makes the handler print the very
    line the loop printed last, and then the exit notice: the time shown
    does not change at the interrupt. *)
Theorem interrupt_in_sleep_repeats_last_line (py : library)
    (initial_time : option timedelta) (update_interval suspend_margin : option float)
    (output_format : option string) (w : world)
    (threshold : timedelta) (text : timedelta -> string) :
  let u := or_default update_interval DEFAULT_UPDATE_INTERVAL in
  let m := or_default suspend_margin u in
  let initial := or_default initial_time timedelta_zero in
  let T := total_microseconds threshold in
  let returned := final_elapsed T initial w in
  (forall e : timedelta, In e (displayed false T initial w) ->
     str_format py (or_default output_format DEFAULT_OUTPUT_FORMAT)
                (from_timedelta e) = Ok (text e)) ->
  (0 <=? m)%float = true ->
  sleep_error py u = None ->
  timedelta_of_seconds (u + m) = Ok threshold ->
  in_range T (total_microseconds initial) (clock_start w) (clock_ticks w) = true ->
  clock_ticks w <> [] -> interrupt w = in_sleep ->
  exists shown,
    timer py initial_time update_interval suspend_margin output_format false w []
    = (Ok returned,
       (shown ++ [display (text returned); display (text returned);
                  "KeyboardInterrupt: exiting"])%list).
Proof.
  intros u m initial T returned Hfmt Hm Hu HT Hrange Hne Hint.
  assert (Hacc : accounted w = clock_ticks w) by (unfold accounted; now rewrite Hint).
  rewrite (timer_reaches_handler py initial_time update_interval suspend_margin
             output_format false w threshold text); try assumption.
  - rewrite (on_keyboard_interrupt_shows py _ _ text)
      by (apply Hfmt; unfold displayed; apply in_or_app; right; now left).
    fold T. fold initial. fold returned.
    unfold shown_by_loop. rewrite Hint, app_nil_r.
    destruct (loop_lines_last text T (clock_ticks w) initial (clock_start w) Hne)
      as (before & E).
    rewrite E.
    replace (last (elapsed_after T initial (clock_start w) (clock_ticks w)) initial)
      with returned by (unfold returned, final_elapsed; now rewrite Hacc).
    exists (EmptyString :: before)%list.
    unfold final_display. cbn [app]. rewrite <- !app_assoc. reflexivity.
  - intros _ e He. apply Hfmt. unfold displayed. apply in_or_app. now left.
  - now rewrite Hacc.
Qed.

(** Two ticks of ten milliseconds under the default options. *)
Lemma interrupt_in_sleep_repeats_last_line_witness :
  exists shown,
    timer example_library None None None None false
          (mk_world 0 [10000; 20000] in_sleep) []
    = (Ok (mk_timedelta 0 0 20000),
       (shown ++ [display "00h : 00m : 00s : 20000ms";
                  display "00h : 00m : 00s : 20000ms";
                  "KeyboardInterrupt: exiting"])%list).
Proof.
  apply (interrupt_in_sleep_repeats_last_line example_library None None None None
           (mk_world 0 [10000; 20000] in_sleep) (mk_timedelta 0 0 20000)
           default_text);
    try reflexivity.
  - renders_by_default.
  - discriminate.
Defined.

End Display.

(* ================================================================== *)
(** * Runs that return *)
(* ================================================================== *)

Module Returning.

Import TimedeltaFacts Run.

Lemma last_ge (ticks : list datetime) (c : datetime) :
  nondecreasing c ticks -> c <= last ticks c.
Proof.
  revert c. induction ticks as [|t ticks IH]; intros c H; [cbn; lia|].
  destruct H as [Hc Hn]. rewrite last_cons. specialize (IH t Hn). lia.
Qed.

(** With a clock that never goes back, every sum the loop forms lies
    between the time at the start and that time plus what the clock has
    moved. *)
Lemma in_range_monotone (T : Z) (ticks : list datetime) (e : Z) (c : datetime) :
  nondecreasing c ticks -> 0 <= e ->
  e + (last ticks c - c) < (MAX_DELTA_DAYS + 1) * 86400000000 ->
  in_range T e c ticks = true.
Proof.
  unfold MAX_DELTA_DAYS.
  revert e c. induction ticks as [|t ticks IH]; intros e c H He Hb; [reflexivity|].
  destruct H as [Hc Hn]. rewrite last_cons in Hb.
  pose proof (last_ge _ _ Hn) as Hl.
  cbn [in_range]. destruct (t - c >? T).
  - apply IH; [assumption | lia | lia].
  - apply andb_true_iff. split.
    + apply Z.leb_le. unfold MAX_DELTA_DAYS.
      rewrite Z.abs_eq by (apply Z.div_pos; lia).
      apply Z.lt_succ_r, Z.div_lt_upper_bound; lia.
    + apply IH; [assumption | lia | lia].
Qed.

(** X14: a run set up so that the loop starts (the margin passes the
    assertion, [sleep] takes the interval, the threshold is a timedelta),
    with a template that [str.format] renders at each elapsed time the run
    displays, a clock that never goes back and a non-negative initial time
    that, with the time the clock moves, stays under 1000000000 days,
    always ends by returning at the interrupt. *)
Theorem monotone_clock_run_returns (py : library) (initial_time : option timedelta)
    (update_interval suspend_margin : option float)
    (output_format : option string) (final_only : bool) (w : world)
    (threshold : timedelta) (text : timedelta -> string) :
  let u := or_default update_interval DEFAULT_UPDATE_INTERVAL in
  let m := or_default suspend_margin u in
  let initial := or_default initial_time timedelta_zero in
  (forall e : timedelta,
     In e (displayed final_only (total_microseconds threshold) initial w) ->
     str_format py (or_default output_format DEFAULT_OUTPUT_FORMAT)
                (from_timedelta e) = Ok (text e)) ->
  (0 <=? m)%float = true ->
  sleep_error py u = None ->
  timedelta_of_seconds (u + m) = Ok threshold ->
  nondecreasing (clock_start w) (accounted w) ->
  0 <= total_microseconds initial ->
  total_microseconds initial + (last (accounted w) (clock_start w) - clock_start w)
  < (MAX_DELTA_DAYS + 1) * 86400000000 ->
  exists returned out,
    timer py initial_time update_interval suspend_margin output_format final_only w []
    = (Ok returned, out).
Proof.
  intros u m initial Hfmt Hm Hu HT Hmono H0 Hb.
  rewrite (timer_reaches_handler py initial_time update_interval suspend_margin
             output_format final_only w threshold text); try assumption.
  - rewrite (on_keyboard_interrupt_shows py _ _ text)
      by (apply Hfmt; unfold displayed; apply in_or_app; right; now left).
    eauto.
  - intros F e He. apply Hfmt. unfold displayed. rewrite F.
    apply in_or_app. now left.
  - apply in_range_monotone; assumption.
Qed.

(** The options left at their defaults, three readings, the last after a
    gap. *)
Lemma monotone_clock_run_returns_witness :
  exists returned out,
    timer example_library None None None None false
          (mk_world 63900000000000000
             [63900000000010000; 63900000000020000; 63900000060000000] in_sleep) []
    = (Ok returned, out).
Proof.
  eapply (monotone_clock_run_returns example_library None None None None false
            (mk_world 63900000000000000
               [63900000000010000; 63900000000020000; 63900000060000000] in_sleep)
            (mk_timedelta 0 0 20000) default_text).
  - renders_by_default.
  - reflexivity.
  - reflexivity.
  - reflexivity.
  - cbn. lia.
  - cbn. lia.
  - unfold MAX_DELTA_DAYS. cbn. lia.
Defined.

End Returning.

(* ================================================================== *)
(** * The commands of [trim.py] *)
(* ================================================================== *)

Module TrimFacts.

Import StrFacts.

(** X17: the color matters to the fancy preview only: in apply mode, with
    neither mode, and in a preview of another format, [main] does the same
    whatever the color. *)
Theorem color_only_in_fancy_preview (args : Trim.arguments) (c : Z) :
  Trim.apply args = true \/ Trim.preview args = false
  \/ String.eqb (Trim.format args) "fancy" = false ->
  Trim.main (Trim.with_color args c) = Trim.main args.
Proof.
  intros H. unfold Trim.main, Trim.with_color. cbn.
  destruct (Trim.apply args); [reflexivity|].
  destruct (Trim.preview args); [|reflexivity].
  destruct H as [H|[H|H]]; try discriminate.
  unfold Trim.preview_command. cbn. rewrite H. reflexivity.
Qed.

Lemma color_only_in_fancy_preview_witness :
  Trim.main (Trim.with_color (Trim.mk_arguments ["a.txt"] false true "git" 1) 5)
  = Trim.main (Trim.mk_arguments ["a.txt"] false true "git" 1).
Proof.
  apply (color_only_in_fancy_preview (Trim.mk_arguments ["a.txt"] false true "git" 1) 5).
  right; right. reflexivity.
Defined.

End TrimFacts.
